(** * MTG Deck Builder API: a shallow embedding of [main.py] and [schemas.py]

    The development follows the layout of the Python sources:
    - the values handled by the program (JSON from the card service, BSON
      documents from the store) and the Python operations the code applies to
      them;
    - [serialize_doc], [_face_images] and [map_scryfall_card];
    - the card search endpoint with its outbound HTTP call;
    - the pydantic models [DeckCard], [Deck] and [DeckUpdate];
    - the deck collection and the deck endpoints;
    - what the specification says of them, and sample inputs;
    - the properties, component by component, and the theorems evaluated at
      the samples.

    Python dictionaries are finite maps with string keys ([gmap string _]):
    a key is bound at most once and two dictionaries with the same bindings
    are equal, as with Python's [==]. Python strings are held as their
    UTF-8 bytes; their length, subscripts and iteration go by character.

    What the program takes from outside is an input of the embedding: the
    outcome of the outbound HTTP call, the current time, the database handle
    (absent when no store is configured), [create_document] of the module
    [database], the builtin [str] on values other than identifiers and
    strings, and pydantic's coercions to numbers. *)

From stdpp Require Import gmap strings list fin_maps.
From Stdlib Require Import ZArith SpecFloat.

Set Warnings "-register-all".
Set Default Proof Using "Type".

Local Open Scope Z_scope.

(* ================================================================= *)
(** * Values *)

(** A [bson.ObjectId] holds bytes, twelve of them when it is generated or
    built from 24 hexadecimal digits; it is kept here as the string [str]
    prints, the lower-case hexadecimal digits of its bytes. *)
Record ObjectId := Oid { oid_hex : string }.

#[global] Instance ObjectId_eq_dec : EqDecision ObjectId.
Proof. solve_decision. Defined.

#[global] Instance spec_float_eq_dec : EqDecision spec_float.
Proof. solve_decision. Defined.

(** The values of the program: what [resp.json()] yields, what pydantic
    dumps, and what the store holds. [VFloat] carries an IEEE-754 binary64
    number, [VDatetime] a [datetime] as the store keeps it, a count of
    milliseconds since the epoch. *)
Inductive value :=
| VNone
| VBool (b : bool)
| VInt (n : Z)
| VFloat (f : spec_float)
| VStr (s : string)
| VList (l : list value)
| VDict (d : gmap string value)
| VObjectId (o : ObjectId)
| VDatetime (t : Z).

#[global] Instance value_inhabited : Inhabited value := populate VNone.

(** Python's [bool(v)]: [None], [False], zero, and empty strings, lists and
    dictionaries are false; everything else is true (an [ObjectId] and a
    [datetime] define neither [__bool__] nor [__len__]). *)
Definition truthy (v : value) : bool :=
  match v with
  | VNone => false
  | VBool b => b
  | VInt n => negb (n =? 0)
  | VFloat f => match f with S754_zero _ => false | _ => true end
  | VStr s => match s with EmptyString => false | String _ _ => true end
  | VList l => match l with [] => false | _ :: _ => true end
  | VDict d => negb (bool_decide (d = ∅))
  | VObjectId _ => true
  | VDatetime _ => true
  end.

(** [a or b] *)
Definition py_or (a b : value) : value := if truthy a then a else b.

Definition is_ObjectId (v : value) : bool :=
  match v with VObjectId _ => true | _ => false end.

Definition is_list (v : value) : bool :=
  match v with VList _ => true | _ => false end.

(** ** Structural equality of values *)

Fixpoint value_size (v : value) : nat :=
  match v with
  | VList l => S (foldr (λ x acc, value_size x + acc)%nat 0%nat l)
  | VDict d => S (map_fold (λ _ x acc, value_size x + acc)%nat 0%nat d)
  | _ => 1%nat
  end.

Fixpoint value_eqb (a b : value) : bool :=
  match a, b with
  | VNone, VNone => true
  | VBool x, VBool y => bool_decide (x = y)
  | VInt x, VInt y => bool_decide (x = y)
  | VFloat x, VFloat y => bool_decide (x = y)
  | VStr x, VStr y => bool_decide (x = y)
  | VList x, VList y =>
      (fix go (x y : list value) : bool :=
         match x, y with
         | [], [] => true
         | a :: x, b :: y => value_eqb a b && go x y
         | _, _ => false
         end) x y
  | VDict x, VDict y =>
      bool_decide (dom x = dom y) &&
      map_fold (λ k v acc, acc && from_option (value_eqb v) false (y !! k)) true x
  | VObjectId x, VObjectId y => bool_decide (x = y)
  | VDatetime x, VDatetime y => bool_decide (x = y)
  | _, _ => false
  end.

Definition dict_eqb (x y : gmap string value) : bool :=
  value_eqb (VDict x) (VDict y).

(* ================================================================= *)
(** * Exceptions *)

Inductive exn :=
| HTTPException (status_code : Z) (detail : value)
| RequestValidationError   (* raised by the framework before the handler runs *)
| InvalidId                (* bson.errors.InvalidId *)
| AttributeError
| TypeError
| KeyError
| IndexError
| Timeout                  (* requests.Timeout *)
| ConnectionError          (* any other failure of the outbound call *)
| JSONDecodeError.

Inductive result (A : Type) :=
| Ok (a : A)
| Raise (e : exn).
Arguments Ok {A} a.
Arguments Raise {A} e.

#[global] Instance result_ret : MRet result := λ A a, Ok a.
#[global] Instance result_bind : MBind result := λ A B f m,
  match m with
  | Ok a => f a
  | Raise e => Raise e
  end.

#[global] Instance result_fmap : FMap result := λ A B f m,
  match m with
  | Ok a => Ok (f a)
  | Raise e => Raise e
  end.

Definition is_Ok {A} (r : result A) : bool :=
  match r with Ok _ => true | Raise _ => false end.

(** The status line the framework sends: the handler's value with 200, an
    [HTTPException] with its own code, a body that fails validation with
    422, and any exception the handler lets escape with 500. *)
Definition http_status {A} (r : result A) : Z :=
  match r with
  | Ok _ => 200
  | Raise (HTTPException code _) => code
  | Raise RequestValidationError => 422
  | Raise _ => 500
  end.

(* ================================================================= *)
(** * Strings *)

(** A Python [str] is a sequence of characters (code points). It is held
    here as its UTF-8 bytes, one [ascii] per byte: a character is a byte
    that is not of the form 10xxxxxx together with the bytes of that form
    that follow it. *)
Definition is_continuation_byte (c : Ascii.ascii) : bool :=
  let n := Ascii.nat_of_ascii c in
  ((128 <=? n) && (n <? 192))%nat.

(** Whether a string starts in the middle of a character *)
Definition continues (s : string) : bool :=
  match s with
  | String d _ => is_continuation_byte d
  | EmptyString => false
  end.

(** The characters of a string in order, each as a string of its own. *)
Fixpoint code_points (s : string) : list string :=
  match s with
  | EmptyString => []
  | String c s' =>
      match continues s', code_points s' with
      | true, ch :: chs => String c ch :: chs
      | _, chs => String c EmptyString :: chs
      end
  end.

(** [len(s)] on a string: the number of its characters. *)
Definition str_len (s : string) : nat := length (code_points s).

(* ================================================================= *)
(** * Python operations on values *)

(** [d.get(k)] on a dictionary *)
Definition dict_get (d : gmap string value) (k : string) : value :=
  default VNone (d !! k).

(** [d[k]] on a dictionary *)
Definition dict_getitem (d : gmap string value) (k : string) : result value :=
  match d !! k with
  | Some v => Ok v
  | None => Raise KeyError
  end.

(** [v.get(k)]: only a dictionary has the method *)
Definition py_get (v : value) (k : string) : result value :=
  match v with
  | VDict d => Ok (dict_get d k)
  | _ => Raise AttributeError
  end.

(** [v.get(k, dflt)] *)
Definition py_get_default (v : value) (k : string) (dflt : value) : result value :=
  match v with
  | VDict d => Ok (default dflt (d !! k))
  | _ => Raise AttributeError
  end.

(** [len(v)] *)
Definition py_len (v : value) : result Z :=
  match v with
  | VStr s => Ok (Z.of_nat (str_len s))
  | VList l => Ok (Z.of_nat (length l))
  | VDict d => Ok (Z.of_nat (size d))
  | _ => Raise TypeError
  end.

(** [v[i]] for a literal index [i >= 0]. A dictionary built from JSON has
    string keys only, so an integer subscript is a [KeyError]. *)
Definition py_getitem (v : value) (i : nat) : result value :=
  match v with
  | VList l =>
      match l !! i with
      | Some x => Ok x
      | None => Raise IndexError
      end
  | VStr s =>
      match code_points s !! i with
      | Some c => Ok (VStr c)
      | None => Raise IndexError
      end
  | VDict _ => Raise KeyError
  | _ => Raise TypeError
  end.

(** [for x in v]: the items a [for] loop or a comprehension visits. The order
    in which a dictionary yields its keys is that of [map_to_list]. *)
Definition py_iter (v : value) : result (list value) :=
  match v with
  | VList l => Ok l
  | VStr s => Ok (VStr <$> code_points s)
  | VDict d => Ok ((λ kv, VStr kv.1) <$> map_to_list d)
  | _ => Raise TypeError
  end.

(* ================================================================= *)
(** * Document Serializer *)

(** [str(v)] prints an [ObjectId] as its hexadecimal digits and a string
    as itself. What Python's builtin printer gives for the other values
    (numbers, lists, dates) is not fixed by the program: it is an interface
    the development is parametric in. *)
Class Builtins := { str_builtin : value → string }.

Section Serializer.
Context `{!Builtins}.

Definition py_str (v : value) : string :=
  match v with
  | VObjectId o => oid_hex o
  | VStr s => s
  | _ => str_builtin v
  end.

(** [str(x) if isinstance(x, ObjectId) else x] *)
Definition str_if_ObjectId (x : value) : value :=
  if is_ObjectId x then VStr (py_str x) else x.

(** One round of the loop body of [serialize_doc], for the item [(k, v)]
    of the snapshot [list(doc.items())], acting on [doc]. *)
Definition serialize_step (k : string) (v : value) (doc : gmap string value)
  : gmap string value :=
  let doc := if is_ObjectId v then <[k := VStr (py_str v)]> doc else doc in
  match v with
  | VList l => <[k := VList (str_if_ObjectId <$> l)]> doc
  | _ => doc
  end.

(** [serialize_doc(doc)]; the argument is a document or [None]. *)
Definition serialize_doc (doc : option (gmap string value))
  : option (gmap string value) :=
  match doc with
  | None => doc
  | Some d =>
      if bool_decide (d = ∅) then doc
      else
        let doc := d in            (* doc = dict(doc) *)
        let doc :=
          if truthy (dict_get doc "_id")
          then <["id" := VStr (py_str (dict_get doc "_id"))]> (delete "_id" doc)
          else doc in
        Some (map_fold serialize_step doc doc)
  end.

(** What the loop does to the value of one field. *)
Definition serialize_value (v : value) : value :=
  match v with
  | VObjectId _ => VStr (py_str v)
  | VList l => VList (str_if_ObjectId <$> l)
  | _ => v
  end.

End Serializer.

(* ================================================================= *)
(** * Card Data Mapper *)

Definition SCRYFALL_API : string := "https://api.scryfall.com".

Definition _face_images (face : value) : result (gmap string value) :=
  c ← py_get face "image_uris";
  img_small ←
    (if truthy c
     then uris ← py_get_default face "image_uris" (VDict ∅); py_get uris "small"
     else Ok VNone);
  c ← py_get face "image_uris";
  img_normal ←
    (if truthy c
     then uris ← py_get_default face "image_uris" (VDict ∅); py_get uris "normal"
     else Ok VNone);
  Ok {[ "small" := img_small; "normal" := img_normal ]}.

(** [card.get("card_faces") and len(card["card_faces"]) > n] *)
Definition more_faces_than (card : gmap string value) (n : Z) : result bool :=
  if truthy (dict_get card "card_faces")
  then faces ← dict_getitem card "card_faces"; len ← py_len faces; Ok (n <? len)
  else Ok false.

(** [card.get(field)], replaced by [card["card_faces"][0].get(field)] under
    [if not <field> and card.get("card_faces")] *)
Definition text_field (card : gmap string value) (field : string) : result value :=
  let v := dict_get card field in
  if negb (truthy v) && truthy (dict_get card "card_faces")
  then
    faces ← dict_getitem card "card_faces";
    face0 ← py_getitem faces 0;
    py_get face0 field
  else Ok v.

Definition map_scryfall_card (card : gmap string value) : result (gmap string value) :=
  '(image_front_small, image_front_normal) ←
    (if truthy (dict_get card "image_uris")
     then
       uris ← dict_getitem card "image_uris";
       s ← py_get uris "small";
       uris ← dict_getitem card "image_uris";
       n ← py_get uris "normal";
       Ok (s, n)
     else
       c ← more_faces_than card 0;
       if c : bool
       then
         faces ← dict_getitem card "card_faces";
         face0 ← py_getitem faces 0;
         imgs0 ← _face_images face0;
         s ← dict_getitem imgs0 "small";
         n ← dict_getitem imgs0 "normal";
         Ok (s, n)
       else Ok (VNone, VNone));
  (* Back face *)
  '(image_back_small, image_back_normal) ←
    (c ← more_faces_than card 1;
     if c : bool
     then
       faces ← dict_getitem card "card_faces";
       face1 ← py_getitem faces 1;
       imgs1 ← _face_images face1;
       s ← dict_getitem imgs1 "small";
       n ← dict_getitem imgs1 "normal";
       Ok (s, n)
     else Ok (VNone, VNone));
  (* Text fields prefer full card fields, fallback to first face *)
  let colors := dict_get card "colors" in
  mana_cost ← text_field card "mana_cost";
  type_line ← text_field card "type_line";
  oracle_text ← text_field card "oracle_text";
  Ok {[ "scryfall_id" := dict_get card "id";
        "name" := dict_get card "name";
        "mana_cost" := mana_cost;
        "type_line" := type_line;
        "oracle_text" := oracle_text;
        "colors" := colors;
        "image_small" := image_front_small;
        "image_front_small" := image_front_small;
        "image_front_normal" := image_front_normal;
        "image_back_small" := image_back_small;
        "image_back_normal" := image_back_normal;
        "has_back" := VBool (truthy (py_or image_back_small image_back_normal)) ]}.

(** [map_scryfall_card(c)] for an item of any type: the first thing the
    function does is [card.get(...)], which only a dictionary has. *)
Definition map_scryfall_card_item (c : value) : result value :=
  match c with
  | VDict card => VDict <$> map_scryfall_card card
  | _ => Raise AttributeError
  end.

(* ================================================================= *)
(** * External Card Search Client *)

(** A [requests.Response]: its status code and what [resp.json()] gives. *)
Record Response := { status_code : Z; json : result value }.

(** [try: body except requests.Timeout: handler] *)
Definition except_Timeout {A} (body handler : result A) : result A :=
  match body with
  | Raise Timeout => handler
  | _ => body
  end.

(** [try: body except Exception: handler] *)
Definition except_Exception {A} (body handler : result A) : result A :=
  match body with
  | Raise _ => handler
  | _ => body
  end.

Section CardEndpoints.

(** [requests.get(url, params=..., timeout=...)]: the outcome of the
    outbound call is an input of the program. *)
Variable requests_get : string → gmap string value → Z → result Response.

Definition search_cards (q : string) (page : Z) : result (gmap string value) :=
  except_Timeout
    (resp ← requests_get (SCRYFALL_API +:+ "/cards/search")
                         {[ "q" := VStr q; "page" := VInt page ]} 10;
     if bool_decide (status_code resp ≠ 200)
     then
       detail ← except_Exception
                  (body ← json resp;
                   py_get_default body "details" (VStr "Scryfall error"))
                  (Ok (VStr "Scryfall error"));
       Raise (HTTPException (status_code resp) detail)
     else
       data ← json resp;
       items ← py_get_default data "data" (VList []);
       items ← py_iter items;
       mapped ← mapM map_scryfall_card_item items;
       total_cards ← py_get data "total_cards";
       has_more ← py_get_default data "has_more" (VBool false);
       next_page ← py_get data "next_page";
       Ok {[ "object" := VStr "list";
             "total_cards" := total_cards;
             "has_more" := has_more;
             "next_page" := next_page;
             "data" := VList mapped ]})
    (Raise (HTTPException 504 (VStr "Scryfall request timed out"))).

Definition get_card (scryfall_id : string) : result (gmap string value) :=
  resp ← requests_get (SCRYFALL_API +:+ "/cards/" +:+ scryfall_id) ∅ 10;
  if bool_decide (status_code resp ≠ 200)
  then Raise (HTTPException (status_code resp) (VStr "Card not found"))
  else
    card ← json resp;
    match card with
    | VDict card => map_scryfall_card card
    | _ => Raise AttributeError
    end.

End CardEndpoints.

(* ================================================================= *)
(** * Request models ([schemas.py] and [DeckUpdate]) *)

(** pydantic's conversion of a JSON value to [int] and to [float] (which
    JSON numbers, strings and booleans it accepts) belongs to the library:
    it is an interface the models are parametric in. *)
Class Coercions := {
  validate_int : value → option Z;
  validate_float : value → option spec_float
}.

(** ** Field validators; [None] is a validation error for the field *)

(** [str]: only a JSON string is accepted *)
Definition validate_str (v : value) : option string :=
  match v with
  | VStr s => Some s
  | _ => None
  end.

(** [Field(min_length=lo, max_length=hi)] on a string: the bounds are on
    the number of characters *)
Definition length_between (lo hi : nat) (s : string) : option string :=
  if bool_decide (lo ≤ str_len s ≤ hi)%nat then Some s else None.

Definition max_length (hi : nat) (s : string) : option string :=
  length_between 0 hi s.

(** [List[T]] *)
Definition validate_list {A} (validate : value → option A) (v : value)
  : option (list A) :=
  match v with
  | VList l => mapM validate l
  | _ => None
  end.

(** A required field, [Field(...)] *)
Definition required {A} (validate : value → option A) (input : option value)
  : option A :=
  input ≫= validate.

(** A field with a default: an absent key takes the default unvalidated *)
Definition with_default {A} (validate : value → option A) (dflt : A)
    (input : option value) : option A :=
  match input with
  | None => Some dflt
  | Some v => validate v
  end.

(** [Optional[T]]: [null] is accepted as [None] *)
Definition optional {A} (validate : value → option A) (v : value)
  : option (option A) :=
  match v with
  | VNone => Some None
  | _ => Some <$> validate v
  end.

(** ** Dumping a model to a dictionary *)

(** [model_dump(exclude_none=True)] leaves out the fields that are [None]. *)
Definition set_unless_none (k : string) (o : option value)
    (d : gmap string value) : gmap string value :=
  match o with
  | Some v => <[k := v]> d
  | None => d
  end.

(** [model_dump()] keeps them, as [None]. *)
Definition set_or_none (k : string) (o : option value)
    (d : gmap string value) : gmap string value :=
  <[k := default VNone o]> d.

Definition VStrs (l : list string) : value := VList (VStr <$> l).

Module DeckCard.

Record t := {
  scryfall_id : string;
  name : string;
  quantity : Z;
  mana_cost : option string;
  type_line : option string;
  colors : option (list string);
  image_small : option string;
  image_front_small : option string;
  image_back_small : option string;
  cmc : option spec_float;
  color_identity : option (list string)
}.

Section Validate.
Context `{!Coercions}.

(** [Field(1, ge=1, le=99)] *)
Definition validate_quantity (v : value) : option Z :=
  n ← validate_int v;
  if bool_decide (1 ≤ n ≤ 99) then Some n else None.

Definition validate (v : value) : option t :=
  match v with
  | VDict body =>
      scryfall_id ← required validate_str (body !! "scryfall_id");
      name ← required validate_str (body !! "name");
      quantity ← with_default validate_quantity 1 (body !! "quantity");
      mana_cost ← with_default (optional validate_str) None (body !! "mana_cost");
      type_line ← with_default (optional validate_str) None (body !! "type_line");
      colors ← with_default (optional (validate_list validate_str)) None
                 (body !! "colors");
      image_small ← with_default (optional validate_str) None
                      (body !! "image_small");
      image_front_small ← with_default (optional validate_str) None
                            (body !! "image_front_small");
      image_back_small ← with_default (optional validate_str) None
                           (body !! "image_back_small");
      cmc ← with_default (optional validate_float) None (body !! "cmc");
      color_identity ← with_default (optional (validate_list validate_str)) None
                         (body !! "color_identity");
      Some {| scryfall_id := scryfall_id; name := name; quantity := quantity;
              mana_cost := mana_cost; type_line := type_line; colors := colors;
              image_small := image_small;
              image_front_small := image_front_small;
              image_back_small := image_back_small;
              cmc := cmc; color_identity := color_identity |}
  | _ => None
  end.
End Validate.

Definition model_dump_with (set : string → option value → gmap string value
                                   → gmap string value) (c : t)
  : gmap string value :=
  set "mana_cost" (VStr <$> mana_cost c)
  (set "type_line" (VStr <$> type_line c)
  (set "colors" (VStrs <$> colors c)
  (set "image_small" (VStr <$> image_small c)
  (set "image_front_small" (VStr <$> image_front_small c)
  (set "image_back_small" (VStr <$> image_back_small c)
  (set "cmc" (VFloat <$> cmc c)
  (set "color_identity" (VStrs <$> color_identity c)
  {[ "scryfall_id" := VStr (scryfall_id c);
     "name" := VStr (name c);
     "quantity" := VInt (quantity c) ]}))))))).

Definition model_dump : t → gmap string value := model_dump_with set_or_none.
Definition model_dump_exclude_none : t → gmap string value :=
  model_dump_with set_unless_none.

End DeckCard.

Module Deck.

(** The [Literal[...]] of [format] *)
Definition formats : list string :=
  [ "commander"; "modern"; "standard"; "pioneer"; "legacy";
    "vintage"; "pauper"; "brawl"; "historic"; "casual" ].

Record t := {
  name : string;
  format : option string;
  description : option string;
  cards : list DeckCard.t;
  commander_id : option string;
  commander_name : option string;
  commander_colors : option (list string)
}.

Definition validate_format (v : value) : option string :=
  s ← validate_str v;
  if bool_decide (s ∈ formats) then Some s else None.

Section Validate.
Context `{!Coercions}.

Definition validate (v : value) : option t :=
  match v with
  | VDict body =>
      name ← required (λ v, validate_str v ≫= length_between 1 120)
               (body !! "name");
      format ← with_default (optional validate_format) (Some "casual")
                 (body !! "format");
      description ← with_default
                      (optional (λ v, validate_str v ≫= max_length 500)) None
                      (body !! "description");
      cards ← with_default (validate_list DeckCard.validate) []
                (body !! "cards");
      commander_id ← with_default (optional validate_str) None
                       (body !! "commander_id");
      commander_name ← with_default (optional validate_str) None
                         (body !! "commander_name");
      commander_colors ← with_default (optional (validate_list validate_str))
                           None (body !! "commander_colors");
      Some {| name := name; format := format; description := description;
              cards := cards; commander_id := commander_id;
              commander_name := commander_name;
              commander_colors := commander_colors |}
  | _ => None
  end.
End Validate.

Definition model_dump (d : t) : gmap string value :=
  {[ "name" := VStr (name d);
     "format" := default VNone (VStr <$> format d);
     "description" := default VNone (VStr <$> description d);
     "cards" := VList ((VDict ∘ DeckCard.model_dump) <$> cards d);
     "commander_id" := default VNone (VStr <$> commander_id d);
     "commander_name" := default VNone (VStr <$> commander_name d);
     "commander_colors" := default VNone (VStrs <$> commander_colors d) ]}.

End Deck.

Module DeckUpdate.

Record t := {
  name : option string;
  format : option string;
  description : option string;
  cards : option (list DeckCard.t)
}.

Section Validate.
Context `{!Coercions}.

Definition validate (v : value) : option t :=
  match v with
  | VDict body =>
      name ← with_default (optional validate_str) None (body !! "name");
      format ← with_default (optional validate_str) None (body !! "format");
      description ← with_default (optional validate_str) None
                      (body !! "description");
      cards ← with_default (optional (validate_list DeckCard.validate)) None
                (body !! "cards");
      Some {| name := name; format := format; description := description;
              cards := cards |}
  | _ => None
  end.
End Validate.

Definition model_dump_exclude_none (p : t) : gmap string value :=
  set_unless_none "name" (VStr <$> name p)
  (set_unless_none "format" (VStr <$> format p)
  (set_unless_none "description" (VStr <$> description p)
  (set_unless_none "cards"
     ((λ l, VList ((VDict ∘ DeckCard.model_dump_exclude_none) <$> l)) <$> cards p)
     ∅))).

End DeckUpdate.

(* ================================================================= *)
(** * Identifiers *)

Definition is_hex_digit (c : Ascii.ascii) : bool :=
  let n := Ascii.nat_of_ascii c in
  ((48 <=? n) && (n <=? 57) || (65 <=? n) && (n <=? 70)
   || (97 <=? n) && (n <=? 102))%nat.

Definition lower_hex_digit (c : Ascii.ascii) : Ascii.ascii :=
  let n := Ascii.nat_of_ascii c in
  if ((65 <=? n) && (n <=? 70))%nat then Ascii.ascii_of_nat (n + 32) else c.

(** The white space [bytes.fromhex] skips *)
Definition is_space (c : Ascii.ascii) : bool :=
  let n := Ascii.nat_of_ascii c in
  ((9 <=? n) && (n <=? 13) || (n =? 32))%nat.

(** [bytes.fromhex(s)]: the bytes are written as pairs of hexadecimal
    digits; white space is skipped before a pair and at the end, not
    between the two digits of a pair; any other character is an error. The
    bytes are returned as [hexlify] prints them, in lower-case digits. *)
Fixpoint bytes_fromhex (s : string) : option string :=
  match s with
  | EmptyString => Some EmptyString
  | String c s' =>
      if is_space c then bytes_fromhex s'
      else
        match s' with
        | String d s'' =>
            if is_hex_digit c && is_hex_digit d
            then String (lower_hex_digit c) ∘ String (lower_hex_digit d)
                   <$> bytes_fromhex s''
            else None
        | EmptyString => None
        end
  end.

(** [ObjectId(s)] for a string: [len(s) == 24] and [bytes.fromhex(s)], whose
    error becomes [InvalidId]. Nothing checks how many bytes come out: 24
    hexadecimal digits give twelve, and a string of 24 characters some of
    which are white space gives fewer. *)
Definition ObjectId_new (s : string) : result ObjectId :=
  if bool_decide (str_len s = 24%nat)
  then match bytes_fromhex s with
       | Some hex => Ok (Oid hex)
       | None => Raise InvalidId
       end
  else Raise InvalidId.

(** [ObjectId.is_valid(s)] for a string: whether [ObjectId(s)] can be built *)
Definition ObjectId_is_valid (s : string) : bool := is_Ok (ObjectId_new s).

(* ================================================================= *)
(** * The document store *)

(** The calls the program makes on the driver, in the order made. *)
Inductive db_call :=
| InsertOne (collection : string) (doc : gmap string value)
| FindOne (oid : ObjectId)
| UpdateOne (oid : ObjectId) (set : gmap string value)
| DeleteOne (oid : ObjectId).

(** The database handle [db]: the documents of [db["deck"]] in their natural
    order, and the trace of the driver calls made so far. The module-level
    [db] of the program is [None] when no store is configured. *)
Record store := {
  deck : list (gmap string value);
  calls : list db_call
}.

Definition called (c : db_call) (st : store) : store :=
  {| deck := deck st; calls := calls st ++ [c] |}.

(** The filter [{"_id": oid}] *)
Definition has_id (oid : ObjectId) (doc : gmap string value) : bool :=
  match doc !! "_id" with
  | Some (VObjectId o) => bool_decide (o = oid)
  | _ => false
  end.

Definition find_one (oid : ObjectId) (st : store)
  : option (gmap string value) * store :=
  (List.find (has_id oid) (deck st), called (FindOne oid) st).

Record UpdateResult := { matched_count : Z; modified_count : Z }.

(** [{"$set": set}] applied to a document: the listed fields take the new
    values, the others keep theirs. *)
Definition apply_set (set doc : gmap string value) : gmap string value :=
  set ∪ doc.

(** [update_one({"_id": oid}, {"$set": set})] on the documents: the first
    match is rewritten; it counts as modified when the rewrite changed it. *)
Fixpoint update_first (oid : ObjectId) (set : gmap string value)
    (docs : list (gmap string value))
  : list (gmap string value) * UpdateResult :=
  match docs with
  | [] => ([], {| matched_count := 0; modified_count := 0 |})
  | doc :: docs =>
      if has_id oid doc
      then
        let doc' := apply_set set doc in
        (doc' :: docs,
         {| matched_count := 1;
            modified_count := if dict_eqb doc' doc then 0 else 1 |})
      else
        let '(docs', res) := update_first oid set docs in
        (doc :: docs', res)
  end.

Definition update_one (oid : ObjectId) (set : gmap string value) (st : store)
  : UpdateResult * store :=
  let '(docs, res) := update_first oid set (deck st) in
  (res, {| deck := docs; calls := calls st ++ [UpdateOne oid set] |}).

Record DeleteResult := { deleted_count : Z }.

Fixpoint delete_first (oid : ObjectId) (docs : list (gmap string value))
  : list (gmap string value) * DeleteResult :=
  match docs with
  | [] => ([], {| deleted_count := 0 |})
  | doc :: docs =>
      if has_id oid doc
      then (docs, {| deleted_count := 1 |})
      else
        let '(docs', res) := delete_first oid docs in
        (doc :: docs', res)
  end.

Definition delete_one (oid : ObjectId) (st : store) : DeleteResult * store :=
  let '(docs, res) := delete_first oid (deck st) in
  (res, {| deck := docs; calls := calls st ++ [DeleteOne oid] |}).

(** [create_document(collection_name, data)] of [database.py], which is not
    among the sources read here: it is an interface of the deck endpoints.
    It returns the identifier of the inserted document as a string. *)
Class Database := {
  create_document : string → Deck.t → store → string * store
}.

(* ================================================================= *)
(** * Deck endpoints *)

Definition not_configured {A} : result A :=
  Raise (HTTPException 500 (VStr "Database not configured")).

Definition deck_not_found {A} : result A :=
  Raise (HTTPException 404 (VStr "Deck not found")).

Section DeckEndpoints.
Context `{!Builtins, !Coercions, !Database}.

Definition create_deck (db : option store) (deck : Deck.t)
  : result (gmap string value) * option store :=
  match db with
  | None => (not_configured, db)
  | Some st =>
      let '(deck_id, st) := create_document "deck" deck st in
      (Ok {[ "id" := VStr deck_id ]}, Some st)
  end.

(** [not doc] for what [find_one] returns: a document or [None] *)
Definition no_document (doc : option (gmap string value)) : bool :=
  match doc with
  | None => true
  | Some d => bool_decide (d = ∅)
  end.

Definition get_deck (db : option store) (deck_id : string)
  : result (option (gmap string value)) * option store :=
  match db with
  | None => (not_configured, db)
  | Some st =>
      match ObjectId_new deck_id with
      | Raise e => (Raise e, db)
      | Ok oid =>
          let '(doc, st) := find_one oid st in
          if no_document doc
          then (deck_not_found, Some st)
          else (Ok (serialize_doc doc), Some st)
      end
  end.

Definition update_deck (db : option store) (now : Z) (deck_id : string)
    (payload : DeckUpdate.t)
  : result (gmap string value) * option store :=
  match db with
  | None => (not_configured, db)
  | Some st =>
      let update_doc := DeckUpdate.model_dump_exclude_none payload in
      if bool_decide (update_doc = ∅)
      then (Ok {[ "updated" := VBool false ]}, db)
      else
        (* naive timestamp update; [now] is [datetime.utcnow()] *)
        let update_doc := <["updated_at" := VDatetime now]> update_doc in
        match ObjectId_new deck_id with
        | Raise e => (Raise e, db)
        | Ok oid =>
            let '(res, st) := update_one oid update_doc st in
            if bool_decide (matched_count res = 0)
            then (deck_not_found, Some st)
            else (Ok {[ "updated" := VBool (bool_decide (modified_count res > 0)) ]},
                  Some st)
        end
  end.

Definition delete_deck (db : option store) (deck_id : string)
  : result (gmap string value) * option store :=
  match db with
  | None => (not_configured, db)
  | Some st =>
      match ObjectId_new deck_id with
      | Raise e => (Raise e, db)
      | Ok oid =>
          let '(res, st) := delete_one oid st in
          (Ok {[ "deleted" := VBool (bool_decide (deleted_count res > 0)) ]},
           Some st)
      end
  end.

(** ** The routes: the body is validated against the model first *)

(** [POST /api/decks] *)
Definition post_decks (db : option store) (body : value)
  : result (gmap string value) * option store :=
  match Deck.validate body with
  | None => (Raise RequestValidationError, db)
  | Some deck => create_deck db deck
  end.

(** [PUT /api/decks/{deck_id}] *)
Definition put_deck (db : option store) (now : Z) (deck_id : string)
    (body : value)
  : result (gmap string value) * option store :=
  match DeckUpdate.validate body with
  | None => (Raise RequestValidationError, db)
  | Some payload => update_deck db now deck_id payload
  end.

End DeckEndpoints.

(* ================================================================= *)
(** * The specification's side

    The definitions below are not taken from the program: they state, in the
    words of the specification, what the program is compared with. *)

(** ** Document Serializer *)

(** The external form of a field value, in the words of the specification:
    an identifier becomes its string form, directly or as an element of a
    list; anything else is passed through. *)
Definition id_to_str (x : value) : value :=
  match x with
  | VObjectId o => VStr (oid_hex o)
  | _ => x
  end.

Definition external_form (v : value) : value :=
  match v with
  | VList l => VList (id_to_str <$> l)
  | _ => id_to_str v
  end.

(** ** Card Data Mapper *)

(** The [small] and [normal] entries of an [image_uris] mapping. *)
Definition images_of (uris : value) : value * value :=
  match uris with
  | VDict d => (dict_get d "small", dict_get d "normal")
  | _ => (VNone, VNone)
  end.

(** The images of a face: those of its [image_uris] when it has a non-empty
    one, null otherwise. *)
Definition face_images_spec (face : value) : value * value :=
  match face with
  | VDict f =>
      if truthy (dict_get f "image_uris")
      then images_of (dict_get f "image_uris")
      else (VNone, VNone)
  | _ => (VNone, VNone)
  end.

(** The faces of a record: the items of its [card_faces] list, if any. *)
Definition faces_of (card : gmap string value) : list value :=
  match dict_get card "card_faces" with
  | VList l => l
  | _ => []
  end.

(** Front images: from the top-level [image_uris] when the record has a
    non-empty one; else from face 0 when there is one; else null. *)
Definition front_images_spec (card : gmap string value) : value * value :=
  if truthy (dict_get card "image_uris")
  then images_of (dict_get card "image_uris")
  else
    match faces_of card with
    | face0 :: _ => face_images_spec face0
    | [] => (VNone, VNone)
    end.

(** Back images: from face 1 when there are at least two faces; else null. *)
Definition back_images_spec (card : gmap string value) : value * value :=
  match faces_of card with
  | _ :: face1 :: _ => face_images_spec face1
  | _ => (VNone, VNone)
  end.

(** A text field: the top-level value when it is present and not empty;
    else that of face 0 when there is one; else the top-level value. *)
Definition text_field_spec (card : gmap string value) (field : string) : value :=
  let v := dict_get card field in
  if truthy v then v
  else
    match faces_of card with
    | VDict face0 :: _ => dict_get face0 field
    | _ => v
    end.

Definition mapped_card_spec (card : gmap string value) : gmap string value :=
  let front := front_images_spec card in
  let back := back_images_spec card in
  {[ "scryfall_id" := dict_get card "id";
     "name" := dict_get card "name";
     "mana_cost" := text_field_spec card "mana_cost";
     "type_line" := text_field_spec card "type_line";
     "oracle_text" := text_field_spec card "oracle_text";
     "colors" := dict_get card "colors";
     "image_small" := front.1;
     "image_front_small" := front.1;
     "image_front_normal" := front.2;
     "image_back_small" := back.1;
     "image_back_normal" := back.2;
     "has_back" := VBool (truthy back.1 || truthy back.2) ]}.

(** The shape of a raw card record as the specification gives it: an
    optional [image_uris] mapping, and an optional [card_faces] sequence of
    face objects, each with an optional [image_uris] mapping. *)
Definition is_dict (v : value) : bool :=
  match v with VDict _ => true | _ => false end.

Definition optional_mapping (v : value) : bool :=
  negb (truthy v) || is_dict v.

Definition face_ok (face : value) : bool :=
  match face with
  | VDict f => optional_mapping (dict_get f "image_uris")
  | _ => false
  end.

Definition card_record_ok (card : gmap string value) : bool :=
  optional_mapping (dict_get card "image_uris")
  && (negb (truthy (dict_get card "card_faces"))
      || match dict_get card "card_faces" with
         | VList faces => forallb face_ok faces
         | _ => false
         end).

(** C1 as the claim words it: a text field that is present at the top level
    (bound to a value other than null) is carried verbatim. *)
Definition present_text_field_is_verbatim : Prop :=
  ∀ (card m : gmap string value) (field : string) (v : value),
    field ∈ ["mana_cost"; "type_line"; "oracle_text"] →
    card !! field = Some v → v ≠ VNone →
    map_scryfall_card card = Ok m →
    m !! field = Some v.

(** C2 as the claim words it, for its last part: [has_back] is true exactly
    when one of the two back image fields is not null. *)
Definition has_back_iff_back_image_not_null : Prop :=
  ∀ (card m : gmap string value),
    map_scryfall_card card = Ok m →
    (m !! "has_back" = Some (VBool true)
     ↔ dict_get m "image_back_small" ≠ VNone
       ∨ dict_get m "image_back_normal" ≠ VNone).

(** C2 as the claim words it, for its first part: the front images are those
    of the top-level [image_uris] whenever that field is present. *)
Definition front_images_from_present_uris : Prop :=
  ∀ (card m uris : gmap string value),
    card !! "image_uris" = Some (VDict uris) →
    map_scryfall_card card = Ok m →
    m !! "image_front_small" = Some (dict_get uris "small")
    ∧ m !! "image_front_normal" = Some (dict_get uris "normal").

(** ** Deck endpoints *)

Section ValidateRest.
Context `{!Coercions}.

(** What [Deck.validate] does with the fields other than [name] and
    [format], as one step. *)
Definition validate_rest (body : gmap string value) (name : string)
    (format : option string) : option Deck.t :=
  description ← with_default
                  (optional (λ v, validate_str v ≫= max_length 500)) None
                  (body !! "description");
  cards ← with_default (validate_list DeckCard.validate) []
            (body !! "cards");
  commander_id ← with_default (optional validate_str) None
                   (body !! "commander_id");
  commander_name ← with_default (optional validate_str) None
                     (body !! "commander_name");
  commander_colors ← with_default (optional (validate_list validate_str))
                       None (body !! "commander_colors");
  Some {| Deck.name := name; Deck.format := format;
          Deck.description := description;
          Deck.cards := cards; Deck.commander_id := commander_id;
          Deck.commander_name := commander_name;
          Deck.commander_colors := commander_colors |}.

End ValidateRest.

Definition update_fields : list string := ["name"; "format"; "description"; "cards"].

(** C6 as the claim words it, for its first part: a body whose [format] is
    not one of the enumerated formats fails validation. *)
Definition format_outside_enumeration_rejected : Prop :=
  ∀ (C : Coercions) (D : Database) (db : option store)
    (body : gmap string value) (v : value),
    body !! "format" = Some v →
    (∀ s, s ∈ Deck.formats → v ≠ VStr s) →
    (post_decks db (VDict body)).1 = Raise RequestValidationError.

(** C4 as the claim words it: an identifier that is not structurally valid
    gets the status of a valid identifier with no deck. *)
Definition invalid_id_status_is_not_found_status : Prop :=
  ∀ (B : Builtins) (st : store) (bad good : string),
    ObjectId_is_valid bad = false →
    ObjectId_is_valid good = true →
    (∀ oid, ObjectId_new good = Ok oid → List.find (has_id oid) (deck st) = None) →
    http_status (get_deck (Some st) bad).1 = http_status (get_deck (Some st) good).1.

(** C3 as the claim words it: the flag is true exactly when a supplied field
    differs from the stored value. *)
Definition updated_iff_supplied_field_differs : Prop :=
  ∀ (st : store) (now : Z) (deck_id : string) (oid : ObjectId)
    (doc : gmap string value) (payload : DeckUpdate.t),
    ObjectId_new deck_id = Ok oid →
    List.find (has_id oid) (deck st) = Some doc →
    DeckUpdate.model_dump_exclude_none payload ≠ ∅ →
    ((update_deck (Some st) now deck_id payload).1 = Ok {[ "updated" := VBool true ]}
     ↔ ∃ k v, DeckUpdate.model_dump_exclude_none payload !! k = Some v
              ∧ doc !! k ≠ Some v).

(** An update payload that supplies no field. *)
Definition no_fields : DeckUpdate.t := {|
  DeckUpdate.name := None; DeckUpdate.format := None;
  DeckUpdate.description := None; DeckUpdate.cards := None
|}.

(** The document of the [$set]: the dumped payload and the time stamp. *)
Definition write_set (now : Z) (payload : DeckUpdate.t) : gmap string value :=
  <["updated_at" := VDatetime now]> (DeckUpdate.model_dump_exclude_none payload).

(** ** Identifiers written in hexadecimal digits *)

Fixpoint string_map (f : Ascii.ascii → Ascii.ascii) (s : string) : string :=
  match s with
  | EmptyString => EmptyString
  | String c s => String (f c) (string_map f s)
  end.

Fixpoint string_forallb (f : Ascii.ascii → bool) (s : string) : bool :=
  match s with
  | EmptyString => true
  | String c s => f c && string_forallb f s
  end.

(** A string of 24 hexadecimal digits, the form in which the program hands
    out identifiers. *)
Definition is_hex24 (s : string) : bool :=
  bool_decide (String.length s = 24%nat) && string_forallb is_hex_digit s.


(* ================================================================= *)
(** * Sample inputs *)

(** A two-faced record with no top-level images. *)
Definition card_two_faced : gmap string value :=
  {[ "id" := VStr "c0ffee";
     "name" := VStr "Front // Back";
     "mana_cost" := VStr "{1}{R}";
     "type_line" := VStr "Creature";
     "card_faces" :=
       VList [ VDict {[ "mana_cost" := VStr "{R}";
                        "image_uris" := VDict {[ "small" := VStr "f0s";
                                                 "normal" := VStr "f0n" ]} ]};
               VDict {[ "image_uris" := VDict {[ "small" := VStr "f1s";
                                                 "normal" := VStr "f1n" ]} ]} ] ]}.

(** A record whose top-level [mana_cost] is present and empty. *)
Definition card_with_empty_mana_cost : gmap string value :=
  {[ "mana_cost" := VStr "";
     "card_faces" := VList [ VDict {[ "mana_cost" := VStr "{R}" ]} ] ]}.

(** A record whose top-level [image_uris] is present and empty. *)
Definition card_with_empty_image_uris : gmap string value :=
  {[ "image_uris" := VDict ∅;
     "card_faces" :=
       VList [ VDict {[ "image_uris" := VDict {[ "small" := VStr "f0s" ]} ]} ] ]}.

(** A record whose second face has an empty string for an image. *)
Definition card_with_empty_back_image : gmap string value :=
  {[ "card_faces" :=
       VList [ VDict ∅;
               VDict {[ "image_uris" := VDict {[ "small" := VStr "" ]} ]} ] ]}.

(** An outbound call that always times out, and one that always answers. *)
Definition requests_get_timing_out
    (url : string) (params : gmap string value) (timeout : Z) : result Response :=
  Raise Timeout.

Definition requests_get_answering (resp : Response)
    (url : string) (params : gmap string value) (timeout : Z) : result Response :=
  Ok resp.

(** A printer for the values [str] is never asked to print in the samples. *)
Definition sample_builtins : Builtins := {| str_builtin := λ _, "<value>" |}.

(** Numbers as JSON has them: an integer for [int], a float for [float]. *)
Definition json_numbers : Coercions := {|
  validate_int := λ v, match v with VInt n => Some n | _ => None end;
  validate_float := λ v, match v with VFloat f => Some f | _ => None end
|}.

Definition hex_char (d : N) : Ascii.ascii :=
  default (Ascii.ascii_of_nat 48) (String.get (N.to_nat d) "0123456789abcdef").

Fixpoint hex_fixed (width : nat) (n : N) (acc : string) : string :=
  match width with
  | O => acc
  | S width => hex_fixed width (n / 16)%N (String (hex_char (n mod 16)%N) acc)
  end.

(** Modelled from the spec: [create_document] of [database.py], which is not
    among the sources, "inserts it, returns the newly assigned identifier as
    a string". The new identifier counts the driver calls made so far. *)
Definition create_document_model
    (collection_name : string) (data : Deck.t) (st : store) : string * store :=
  let oid := Oid (hex_fixed 24 (N.of_nat (length (calls st))) "") in
  let doc := <["_id" := VObjectId oid]> (Deck.model_dump data) in
  (oid_hex oid,
   {| deck := deck st ++ [doc];
      calls := calls st ++ [InsertOne collection_name doc] |}).

Definition sample_database : Database := {| create_document := create_document_model |}.

Definition empty_store : store := {| deck := []; calls := [] |}.

Definition burn_id : ObjectId := Oid "65f0c0ffee0123456789abcd".

(** A stored deck, last updated at time 1000, and a store holding it. *)
Definition burn_doc : gmap string value :=
  {[ "_id" := VObjectId burn_id;
     "name" := VStr "Burn";
     "format" := VStr "casual";
     "cards" := VList [];
     "updated_at" := VDatetime 1000 ]}.

Definition burn_store : store := {| deck := [burn_doc]; calls := [] |}.

Definition rename_to_burn : DeckUpdate.t := {|
  DeckUpdate.name := Some "Burn";
  DeckUpdate.format := None;
  DeckUpdate.description := None;
  DeckUpdate.cards := None
|}.

Definition rename_to_bolt : DeckUpdate.t := {|
  DeckUpdate.name := Some "Bolt";
  DeckUpdate.format := None;
  DeckUpdate.description := None;
  DeckUpdate.cards := None
|}.

(** A document as [serialize_doc] returns it. *)
Definition serialized_burn : gmap string value :=
  {[ "id" := VStr "65f0c0ffee0123456789abcd";
     "name" := VStr "Burn";
     "cards" := VList [] ]}.

(** Request bodies. *)
Definition body_burn : gmap string value :=
  {[ "name" := VStr "Burn"; "cards" := VList [] ]}.

Definition body_null_format : gmap string value :=
  {[ "name" := VStr "Burn"; "format" := VNone ]}.

Definition body_no_update_fields : gmap string value :=
  {[ "owner" := VStr "nobody" ]}.

Definition body_null_fields : gmap string value :=
  {[ "name" := VNone; "cards" := VNone ]}.

(** A record with top-level images only, and one whose face is not an
    object. *)
Definition card_single_faced : gmap string value :=
  {[ "id" := VStr "b01t";
     "name" := VStr "Lightning Bolt";
     "mana_cost" := VStr "{R}";
     "image_uris" := VDict {[ "small" := VStr "s"; "normal" := VStr "n" ]} ]}.

Definition card_with_malformed_face : gmap string value :=
  {[ "card_faces" := VList [ VInt 5 ] ]}.

(** Answers of the card service. *)
Definition answer_not_found : Response := {|
  status_code := 404;
  json := Ok (VDict {[ "details" := VStr "No cards found" ]})
|}.

Definition answer_one_card : Response := {|
  status_code := 200;
  json := Ok (VDict {[ "total_cards" := VInt 1;
                       "data" := VList [ VDict card_single_faced ] ]})
|}.

(* ================================================================= *)
(** * Further definitions, to state what the endpoints do *)

(** The detail of the error raised for an answer other than 200: the
    [details] of the answer when it is a JSON object, "Scryfall error" when
    the object has none or the answer is anything else. *)
Definition upstream_detail (resp : Response) : value :=
  match json resp with
  | Ok (VDict body) => default (VStr "Scryfall error") (body !! "details")
  | _ => VStr "Scryfall error"
  end.

(** The envelope of a successful search. *)
Definition search_envelope (data : gmap string value) (mapped : list value)
  : gmap string value :=
  {[ "object" := VStr "list";
     "total_cards" := dict_get data "total_cards";
     "has_more" := default (VBool false) (data !! "has_more");
     "next_page" := dict_get data "next_page";
     "data" := VList mapped ]}.

(** The value an update payload supplies for a field, if any. *)
Definition supplied (payload : DeckUpdate.t) (k : string) : option value :=
  if decide (k = "name") then VStr <$> DeckUpdate.name payload
  else if decide (k = "format") then VStr <$> DeckUpdate.format payload
  else if decide (k = "description") then VStr <$> DeckUpdate.description payload
  else if decide (k = "cards") then
    (λ l, VList ((VDict ∘ DeckCard.model_dump_exclude_none) <$> l))
      <$> DeckUpdate.cards payload
  else None.

(** The stored document after an update: the time stamp, the supplied
    fields, and for the rest what was stored. *)
Definition updated_document (now : Z) (payload : DeckUpdate.t)
    (doc : gmap string value) (k : string) : option value :=
  if decide (k = "updated_at") then Some (VDatetime now)
  else match supplied payload k with
       | Some v => Some v
       | None => doc !! k
       end.

(** What [schemas.py] asks of a card entry and of a deck. *)
Definition card_in_bounds (c : DeckCard.t) : Prop :=
  1 ≤ DeckCard.quantity c ≤ 99.

Definition deck_in_bounds (d : Deck.t) : Prop :=
  (1 ≤ str_len (Deck.name d) ≤ 120)%nat
  ∧ (∀ s, Deck.format d = Some s → s ∈ Deck.formats)
  ∧ (∀ s, Deck.description d = Some s → (str_len s ≤ 500)%nat)
  ∧ Forall card_in_bounds (Deck.cards d).

(** The field names of the models. *)
Definition DeckCard_fields : list string :=
  [ "scryfall_id"; "name"; "quantity"; "mana_cost"; "type_line"; "colors";
    "image_small"; "image_front_small"; "image_back_small"; "cmc";
    "color_identity" ].

Definition Deck_fields : list string :=
  [ "name"; "format"; "description"; "cards"; "commander_id";
    "commander_name"; "commander_colors" ].

(** The keys of a mapped card. *)
Definition mapped_card_keys : gset string :=
  list_to_set
    [ "scryfall_id"; "name"; "mana_cost"; "type_line"; "oracle_text"; "colors";
      "image_small"; "image_front_small"; "image_front_normal";
      "image_back_small"; "image_back_normal"; "has_back" ].

(** The values [len] accepts. *)
Definition is_sized (v : value) : bool :=
  match v with
  | VStr _ | VList _ | VDict _ => true
  | _ => false
  end.
(* ================================================================= *)
(** * Further sample inputs *)

(** A second stored deck, and a store holding both. *)
Definition bolt_id : ObjectId := Oid "65f0c0ffee0123456789abce".

Definition bolt_doc : gmap string value :=
  {[ "_id" := VObjectId bolt_id;
     "name" := VStr "Bolt";
     "updated_at" := VDatetime 900 ]}.

Definition two_deck_store : store :=
  {| deck := [bolt_doc; burn_doc]; calls := [] |}.

(** A record whose [card_faces] is a number. *)
Definition card_with_numeric_faces : gmap string value :=
  {[ "card_faces" := VInt 1 ]}.

(** A deck body one of whose cards is not an object. *)
Definition body_with_bad_card : gmap string value :=
  {[ "name" := VStr "Burn"; "cards" := VList [ VInt 5 ] ]}.

(** A card entry, and an update that replaces the cards by it. *)
Definition bolt_card : DeckCard.t := {|
  DeckCard.scryfall_id := "b01t";
  DeckCard.name := "Lightning Bolt";
  DeckCard.quantity := 4;
  DeckCard.mana_cost := Some "{R}";
  DeckCard.type_line := None;
  DeckCard.colors := Some ["R"];
  DeckCard.image_small := None;
  DeckCard.image_front_small := None;
  DeckCard.image_back_small := None;
  DeckCard.cmc := None;
  DeckCard.color_identity := None
|}.

Definition set_cards : DeckUpdate.t := {|
  DeckUpdate.name := None;
  DeckUpdate.format := None;
  DeckUpdate.description := None;
  DeckUpdate.cards := Some [bolt_card]
|}.

(** An answer of the card service that is one card. *)
Definition answer_single_card : Response := {|
  status_code := 200;
  json := Ok (VDict card_single_faced)
|}.

(** A name of 41 letters, each of three bytes. *)
Definition name_of_41_letters : string :=
  "あああああああああああああああああああああああああああああああああああああああああ".
(* ================================================================= *)
(** * Facts about strings *)

(** The characters of a string, put together, are the string. *)
Lemma code_points_join (s : string) :
  foldr String.append EmptyString (code_points s) = s.
Proof.
  induction s as [|c s IH]; [done|]. cbn [code_points].
  destruct (continues s), (code_points s) as [|ch chs]; simpl in *;
    by rewrite <- IH.
Qed.

(** A string with no byte of the form 10xxxxxx, an ASCII string for one, has
    one character per byte. *)
Lemma code_points_bytes (s : string) :
  Forall (λ c, is_continuation_byte c = false) (String.list_ascii_of_string s) →
  code_points s = (λ c, String c EmptyString) <$> String.list_ascii_of_string s.
Proof.
  induction s as [|c s IH]; [done|]. simpl. intros [_ Hs]%Forall_cons.
  rewrite (IH Hs).
  destruct s as [|d s]; [done|]. simpl in *.
  apply Forall_cons in Hs as [-> _]. done.
Qed.

Lemma str_len_bytes (s : string) :
  Forall (λ c, is_continuation_byte c = false) (String.list_ascii_of_string s) →
  str_len s = String.length s.
Proof.
  intros Hs. unfold str_len. rewrite (code_points_bytes s Hs), length_fmap.
  clear Hs. induction s as [|c s IH]; simpl; [done|by rewrite IH].
Qed.

(** No string has more characters than bytes, and only the empty string has
    none. *)
Lemma str_len_le (s : string) : (str_len s ≤ String.length s)%nat.
Proof.
  unfold str_len. induction s as [|c s IH]; simpl; [done|].
  destruct (continues s), (code_points s) as [|ch chs]; simpl in *; lia.
Qed.

Lemma str_len_0 (s : string) : str_len s = 0%nat ↔ s = EmptyString.
Proof.
  split; [|by intros ->].
  unfold str_len. destruct s as [|c s]; [done|]. simpl.
  by destruct (continues s), (code_points s).
Qed.

(* ================================================================= *)
(** * Facts about values *)

Lemma value_size_elem (x : value) (l : list value) :
  x ∈ l → (value_size x < value_size (VList l))%nat.
Proof.
  induction 1 as [x l|x y l _ IH]; simpl in *; lia.
Qed.

Lemma value_size_lookup (d : gmap string value) (k : string) (x : value) :
  d !! k = Some x → (value_size x < value_size (VDict d))%nat.
Proof.
  simpl. intros Hk. apply Nat.lt_succ_r. revert k x Hk.
  apply (map_fold_weak_ind
           (λ r (m : gmap string value),
              ∀ k x, m !! k = Some x → (value_size x ≤ r)%nat)).
  - intros k x. by rewrite lookup_empty.
  - intros i y m r Hi IH k x. rewrite lookup_insert.
    case_decide as Hik.
    + intros [= ->]. lia.
    + intros Hk. specialize (IH _ _ Hk). lia.
Qed.

(** The fold that [value_eqb] runs over the bindings of a dictionary. *)
Lemma fold_andb_true (f : string → value → bool) (m : gmap string value) :
  map_fold (λ k v acc, acc && f k v) true m = true
  ↔ ∀ k v, m !! k = Some v → f k v = true.
Proof.
  apply (map_fold_weak_ind
           (λ r (m : gmap string value),
              r = true ↔ ∀ k v, m !! k = Some v → f k v = true)).
  - split; [|done]. intros _ k v. by rewrite lookup_empty.
  - intros i x m' r Hi IH. rewrite andb_true_iff, IH. split.
    + intros [Hm Hx] k v. rewrite lookup_insert. case_decide as Hik.
      * by intros [= <-]; subst k.
      * apply Hm.
    + intros H. split.
      * intros k v Hk. apply H. rewrite lookup_insert_ne; [done|].
        intros ->. congruence.
      * apply H. by rewrite lookup_insert_eq.
Qed.

Lemma value_eqb_eq (a b : value) : value_eqb a b = true ↔ a = b.
Proof.
  remember (value_size a) as n eqn:Hn. revert a Hn b.
  induction n as [n IH] using lt_wf_ind. intros a -> b.
  destruct a as [| x | x | x | x | x | x | x | x],
           b as [| y | y | y | y | y | y | y | y]; simpl;
    try (split; [discriminate|congruence]);
    try (rewrite bool_decide_eq_true; split; congruence).
  - done.
  - (* lists *)
    assert (Hx : ∀ a, a ∈ x → ∀ b, value_eqb a b = true ↔ a = b).
    { intros a Ha. apply (IH (value_size a)); [|done]. by apply value_size_elem. }
    clear IH. revert y.
    induction x as [|a x IHx]; intros [|b y];
      try (split; [discriminate|congruence]); [done|].
    rewrite andb_true_iff, Hx, IHx.
    + split; [intros [-> [= ->]]; done|intros [= -> ->]; done].
    + intros c Hc. apply Hx. by right.
    + by left.
  - (* dictionaries *)
    rewrite andb_true_iff, bool_decide_eq_true.
    rewrite (fold_andb_true (λ k v, from_option (value_eqb v) false (y !! k))).
    split.
    + intros [Hdom Hall]. f_equal. apply map_eq. intros k.
      destruct (x !! k) as [v|] eqn:Hv.
      * specialize (Hall _ _ Hv). destruct (y !! k) as [w|]; [|done].
        simpl in Hall. f_equal.
        apply (IH (value_size v)) in Hall; [done| |done].
        by eapply value_size_lookup.
      * symmetry. apply not_elem_of_dom. rewrite <- Hdom.
        by apply not_elem_of_dom.
    + intros [= ->]. split; [done|]. intros k v Hv. rewrite Hv. simpl.
      apply (IH (value_size v)); [|done|done]. by eapply value_size_lookup.
Qed.

Lemma dict_eqb_eq (x y : gmap string value) : dict_eqb x y = true ↔ x = y.
Proof.
  unfold dict_eqb. rewrite value_eqb_eq. split; congruence.
Qed.

(* ================================================================= *)
(** * Document Serializer: properties *)

Section SerializerFacts.
Context `{!Builtins}.

Lemma str_if_ObjectId_id_to_str (x : value) : str_if_ObjectId x = id_to_str x.
Proof. by destruct x. Qed.

Lemma serialize_value_external_form (v : value) :
  serialize_value v = external_form v.
Proof.
  destruct v; simpl; try done. f_equal.
  apply list_fmap_ext. intros _ x _. apply str_if_ObjectId_id_to_str.
Qed.

Lemma serialize_step_insert (k : string) (v : value) (doc : gmap string value) :
  doc !! k = Some v ∨ serialize_value v ≠ v →
  serialize_step k v doc = <[k := serialize_value v]> doc.
Proof.
  intros Hk. unfold serialize_step. destruct v; simpl; try done;
    destruct Hk as [Hk|Hk]; by rewrite ?insert_id.
Qed.

(** The loop over [list(doc.items())] rewrites every field in place. *)
Lemma serialize_loop (doc : gmap string value) :
  map_fold serialize_step doc doc = serialize_value <$> doc.
Proof.
  enough (Hloop : ∀ m : gmap string value,
             m ⊆ doc →
             map_fold serialize_step doc m = (serialize_value <$> m) ∪ doc).
  { rewrite Hloop by done. apply map_eq. intros k.
    rewrite lookup_union, !lookup_fmap. by destruct (doc !! k). }
  intros m. revert m.
  apply (map_fold_weak_ind
           (λ r (m : gmap string value),
              m ⊆ doc → r = (serialize_value <$> m) ∪ doc)).
  - intros _. by rewrite fmap_empty, (left_id_L ∅ (∪)).
  - intros k v m r Hk IH Hsub.
    assert (Hv : doc !! k = Some v).
    { eapply lookup_weaken; [|done]. by rewrite lookup_insert_eq. }
    assert (Hm : m ⊆ doc).
    { etrans; [|done]. by apply insert_subseteq. }
    rewrite (IH Hm), fmap_insert, <- insert_union_l.
    apply serialize_step_insert. left.
    by rewrite lookup_union_r by (by rewrite lookup_fmap, Hk).
Qed.

Lemma id_to_str_idemp (x : value) : id_to_str (id_to_str x) = id_to_str x.
Proof. by destruct x. Qed.

Lemma external_form_idemp (v : value) :
  external_form (external_form v) = external_form v.
Proof.
  destruct v; simpl; try done. f_equal.
  rewrite <- list_fmap_compose. apply list_fmap_ext.
  intros _ x _. apply id_to_str_idemp.
Qed.

Lemma external_form_falsy (v : value) :
  truthy v = false → truthy (external_form v) = false.
Proof. destruct v as [| | | | |l| | |]; try done. by destruct l. Qed.

(** [serialize_doc] on a document that is not empty. *)
Lemma serialize_doc_nonempty (d : gmap string value) :
  d ≠ ∅ →
  serialize_doc (Some d) =
    Some (external_form <$>
            (if truthy (dict_get d "_id")
             then <["id" := VStr (py_str (dict_get d "_id"))]> (delete "_id" d)
             else d)).
Proof.
  intros Hd. unfold serialize_doc. rewrite bool_decide_eq_false_2 by done.
  rewrite serialize_loop. f_equal. apply map_fmap_ext.
  intros _ v _. apply serialize_value_external_form.
Qed.

Lemma serialize_doc_idempotent (doc : option (gmap string value)) :
  serialize_doc (serialize_doc doc) = serialize_doc doc.
Proof.
  destruct doc as [d|]; [|done].
  destruct (decide (d = ∅)) as [->|Hd]; [done|].
  rewrite (serialize_doc_nonempty d Hd).
  set (d1 := if truthy (dict_get d "_id") then _ else d).
  assert (Hd1 : d1 ≠ ∅).
  { subst d1. destruct (truthy _); [|done]. apply insert_non_empty. }
  assert (Hne : external_form <$> d1 ≠ ∅) by by rewrite fmap_empty_iff.
  rewrite (serialize_doc_nonempty _ Hne).
  assert (Hid : truthy (dict_get (external_form <$> d1) "_id") = false).
  { unfold dict_get. rewrite lookup_fmap. subst d1.
    destruct (truthy (dict_get d "_id")) eqn:Ht.
    - by rewrite lookup_insert_ne, lookup_delete_eq.
    - unfold dict_get in Ht. destruct (d !! "_id") as [v|]; [|done].
      simpl in *. by apply external_form_falsy. }
  rewrite Hid. f_equal. rewrite <- map_fmap_compose.
  apply map_fmap_ext. intros _ v _. apply external_form_idemp.
Qed.

(** C8. For every stored document, [serialize_doc] renames the internal
    identifier field [_id] to a public [id] field holding its string form;
    in every other field it converts an identifier (alone or as an element
    of a list) to its string form and leaves any other value unchanged;
    and it returns an empty or absent document unchanged. *)
Theorem serialize_doc_external (doc : gmap string value) :
  serialize_doc None = None ∧
  serialize_doc (Some ∅) = Some ∅ ∧
  ∃ doc' : gmap string value,
    serialize_doc (Some doc) = Some doc' ∧
    (∀ o, doc !! "_id" = Some (VObjectId o) →
          doc' !! "id" = Some (VStr (oid_hex o)) ∧ doc' !! "_id" = None) ∧
    (∀ v, doc !! "_id" = Some v → truthy v = true →
          doc' !! "id" = Some (VStr (py_str v)) ∧ doc' !! "_id" = None) ∧
    (∀ k, (k ≠ "_id" ∧ k ≠ "id") ∨ truthy (dict_get doc "_id") = false →
          doc' !! k = external_form <$> doc !! k) ∧
    (∀ k l, k ≠ "_id" → k ≠ "id" → doc !! k = Some (VList l) →
            doc' !! k = Some (VList (id_to_str <$> l))) ∧
    (∀ k v, k ≠ "_id" → k ≠ "id" → doc !! k = Some v →
            is_ObjectId v = false → is_list v = false → doc' !! k = Some v).
Proof.
  split; [done|]. split; [done|].
  destruct (decide (doc = ∅)) as [->|Hd].
  { exists ∅. split; [done|]. split; [|split; [|split; [|split]]].
    - intros o. by rewrite lookup_empty.
    - intros v. by rewrite lookup_empty.
    - intros k _. by rewrite lookup_empty.
    - intros k l _ _. by rewrite lookup_empty.
    - intros k v _ _. by rewrite lookup_empty. }
  eexists. split; [by apply serialize_doc_nonempty|].
  assert (Hother : ∀ k, (k ≠ "_id" ∧ k ≠ "id") ∨ truthy (dict_get doc "_id") = false →
    (external_form <$>
       (if truthy (dict_get doc "_id")
        then <["id" := VStr (py_str (dict_get doc "_id"))]> (delete "_id" doc)
        else doc)) !! k = external_form <$> doc !! k).
  { intros k Hk. rewrite lookup_fmap.
    destruct (truthy (dict_get doc "_id")); [|done].
    destruct Hk as [[H1 H2]|?]; [|done].
    by rewrite lookup_insert_ne, lookup_delete_ne. }
  assert (Hrename : ∀ v, doc !! "_id" = Some v → truthy v = true →
    (external_form <$>
       (if truthy (dict_get doc "_id")
        then <["id" := VStr (py_str (dict_get doc "_id"))]> (delete "_id" doc)
        else doc)) !! "id" = Some (VStr (py_str v))
    ∧ (external_form <$>
         (if truthy (dict_get doc "_id")
          then <["id" := VStr (py_str (dict_get doc "_id"))]> (delete "_id" doc)
          else doc)) !! "_id" = None).
  { intros v Hv Ht. unfold dict_get. rewrite Hv. simpl. rewrite Ht.
    by rewrite !lookup_fmap, lookup_insert_eq, lookup_insert_ne,
               lookup_delete_eq. }
  split; [|split; [|split; [|split]]].
  - intros o Ho. by apply (Hrename _ Ho).
  - done.
  - done.
  - intros k l H1 H2 Hk. rewrite Hother by auto. by rewrite Hk.
  - intros k v H1 H2 Hk Hv Hl. rewrite Hother by auto. rewrite Hk. simpl.
    f_equal. by destruct v.
Qed.

(** C9. For every already-serialized document [x] that contains no raw
    internal identifier field, serializing twice equals serializing once:
    [serialize_doc (serialize_doc x) = serialize_doc x]. *)
Theorem serialize_doc_twice (x : gmap string value) :
  x !! "_id" = None →
  serialize_doc (serialize_doc (Some x)) = serialize_doc (Some x).
Proof. intros _. apply serialize_doc_idempotent. Qed.

End SerializerFacts.

(* ================================================================= *)
(** * Card Data Mapper: properties *)

Lemma bind_Ok {A B} (m : result A) (f : A → result B) (b : B) :
  m ≫= f = Ok b ↔ ∃ a, m = Ok a ∧ f a = Ok b.
Proof.
  destruct m as [a|e]; simpl; split.
  - eauto.
  - by intros (? & [= <-] & ?).
  - done.
  - by intros (? & ? & ?).
Qed.

Lemma truthy_dict_get (d : gmap string value) (k : string) :
  truthy (dict_get d k) = true → d !! k = Some (dict_get d k).
Proof. unfold dict_get. by destruct (d !! k). Qed.

Lemma dict_getitem_truthy (d : gmap string value) (k : string) :
  truthy (dict_get d k) = true → dict_getitem d k = Ok (dict_get d k).
Proof.
  intros Ht. unfold dict_getitem. by rewrite (truthy_dict_get _ _ Ht).
Qed.

(** [_face_images] returns the two images the specification names. *)
Lemma face_images_Ok (face : value) (imgs : gmap string value) :
  _face_images face = Ok imgs →
  imgs = {[ "small" := (face_images_spec face).1;
            "normal" := (face_images_spec face).2 ]}.
Proof.
  unfold _face_images. destruct face as [| | | | | |f| |]; try done.
  simpl. destruct (truthy (dict_get f "image_uris")) eqn:Ht; simpl.
  - rewrite (truthy_dict_get _ _ Ht). simpl.
    destruct (dict_get f "image_uris"); try done. simpl. by intros [= <-].
  - by intros [= <-].
Qed.

Lemma face_images_total (face : value) :
  face_ok face = true → is_Ok (_face_images face) = true.
Proof.
  unfold _face_images, face_ok. destruct face as [| | | | | |f| |]; try done.
  simpl. unfold optional_mapping.
  destruct (truthy (dict_get f "image_uris")) eqn:Ht; simpl; [|done].
  rewrite (truthy_dict_get _ _ Ht). simpl.
  by destruct (dict_get f "image_uris").
Qed.

Lemma truthy_py_or (a b : value) : truthy (py_or a b) = truthy a || truthy b.
Proof. unfold py_or. by destruct (truthy a) eqn:Ha; rewrite ?Ha. Qed.

(** The images of face [i], as both image blocks of [map_scryfall_card]
    compute them. *)
Lemma nth_face_images_Ok (card : gmap string value) (i : nat) (p : value * value) :
  (c ← more_faces_than card (Z.of_nat i);
   if c : bool
   then
     faces ← dict_getitem card "card_faces";
     face ← py_getitem faces i;
     imgs ← _face_images face;
     s ← dict_getitem imgs "small";
     n ← dict_getitem imgs "normal";
     Ok (s, n)
   else Ok (VNone, VNone)) = Ok p →
  p = match faces_of card !! i with
      | Some face => face_images_spec face
      | None => (VNone, VNone)
      end.
Proof.
  unfold more_faces_than, faces_of.
  destruct (truthy (dict_get card "card_faces")) eqn:Ht; simpl.
  2:{ intros [= <-]. destruct (dict_get card "card_faces") as [| | | | |l| | |];
        try done. destruct l; [|done]. by rewrite lookup_nil. }
  rewrite (dict_getitem_truthy _ _ Ht).
  destruct (dict_get card "card_faces") as [| | | |s|l|d| |]; simpl; try done.
  - (* a string: its characters are not faces *)
    destruct (Z.of_nat i <? Z.of_nat (str_len s)); simpl.
    + by destruct (code_points s !! i).
    + by intros [= <-].
  - (* a list *)
    destruct (Z.of_nat i <? Z.of_nat (length l)) eqn:Hlen; simpl.
    + destruct (l !! i) as [face|]; simpl; [|done].
      intros H. apply bind_Ok in H as (imgs & Himgs & H).
      apply face_images_Ok in Himgs. subst imgs.
      unfold dict_getitem in H. simplify_map_eq.
      by destruct (face_images_spec face).
    + intros [= <-]. apply Z.ltb_ge in Hlen.
      by rewrite lookup_ge_None_2 by lia.
  - (* a dictionary has no item 0 or 1 *)
    destruct (Z.of_nat i <? Z.of_nat (size d)); simpl; [done|].
    by intros [= <-].
Qed.

Lemma text_field_Ok (card : gmap string value) (field : string) (v : value) :
  text_field card field = Ok v → v = text_field_spec card field.
Proof.
  unfold text_field, text_field_spec, faces_of.
  destruct (truthy (dict_get card field)); simpl; [by intros [= <-]|].
  destruct (truthy (dict_get card "card_faces")) eqn:Ht; simpl.
  2:{ intros [= <-]. destruct (dict_get card "card_faces") as [| | | | |l| | |];
        try done. by destruct l. }
  rewrite (dict_getitem_truthy _ _ Ht).
  destruct (dict_get card "card_faces") as [| | | |s|l|d| |]; simpl; try done.
  - by destruct (code_points s !! 0%nat).
  - destruct l as [|face0 l]; [done|]. simpl.
    destruct face0; try done. simpl. by intros [= <-].
Qed.

(** [map_scryfall_card] refines the mapping of the specification: whenever it
    returns, it returns [mapped_card_spec]. *)
Lemma map_scryfall_card_Ok (card m : gmap string value) :
  map_scryfall_card card = Ok m → m = mapped_card_spec card.
Proof.
  unfold map_scryfall_card. intros H.
  apply bind_Ok in H as ([fs fn] & Hfront & H).
  apply bind_Ok in H as ([bs bn] & Hback & H).
  simpl in H.
  apply bind_Ok in H as (mc & Hmc & H).
  apply bind_Ok in H as (tl & Htl & H).
  apply bind_Ok in H as (ot & Hot & H).
  injection H as <-.
  apply text_field_Ok in Hmc, Htl, Hot. subst mc tl ot.
  apply (nth_face_images_Ok card 1) in Hback.
  assert (Hb : (bs, bn) = back_images_spec card).
  { rewrite Hback. unfold back_images_spec.
    by destruct (faces_of card) as [|? [|? ?]]. }
  assert (Hf : (fs, fn) = front_images_spec card).
  { unfold front_images_spec.
    destruct (truthy (dict_get card "image_uris")) eqn:Ht.
    - rewrite (dict_getitem_truthy _ _ Ht) in Hfront. simpl in Hfront.
      destruct (dict_get card "image_uris"); try done.
      simpl in Hfront. by injection Hfront as <- <-.
    - apply (nth_face_images_Ok card 0) in Hfront. rewrite Hfront.
      by destruct (faces_of card). }
  unfold mapped_card_spec. rewrite <- Hf, <- Hb. simpl.
  by rewrite truthy_py_or.
Qed.

Lemma is_Ok_true {A} (r : result A) : is_Ok r = true ↔ ∃ a, r = Ok a.
Proof.
  destruct r as [a|e]; simpl; split.
  - eauto.
  - done.
  - done.
  - by intros [? ?].
Qed.

Lemma card_record_ok_faces (card : gmap string value) :
  card_record_ok card = true →
  truthy (dict_get card "card_faces") = true →
  ∃ face0 faces,
    dict_get card "card_faces" = VList (face0 :: faces)
    ∧ forallb face_ok (face0 :: faces) = true.
Proof.
  unfold card_record_ok. intros Hok Ht.
  apply andb_true_iff in Hok as [_ Hf]. rewrite Ht in Hf. simpl in Hf.
  destruct (dict_get card "card_faces") as [| | | | |l| | |]; try done.
  destruct l as [|face0 faces]; [done|]. eauto.
Qed.

Lemma nth_face_images_total (card : gmap string value) (i : nat) :
  card_record_ok card = true →
  is_Ok (c ← more_faces_than card (Z.of_nat i);
         if c : bool
         then
           faces ← dict_getitem card "card_faces";
           face ← py_getitem faces i;
           imgs ← _face_images face;
           s ← dict_getitem imgs "small";
           n ← dict_getitem imgs "normal";
           Ok (s, n)
         else Ok (VNone, VNone)) = true.
Proof.
  intros Hok. unfold more_faces_than.
  destruct (truthy (dict_get card "card_faces")) eqn:Ht; [|done].
  destruct (card_record_ok_faces _ Hok Ht) as (face0 & faces & Hf & Hall).
  rewrite (dict_getitem_truthy _ _ Ht), Hf. cbn [mbind result_bind py_len].
  destruct (Z.of_nat i <? Z.of_nat (length (face0 :: faces))) eqn:Hlen; [|done].
  apply Z.ltb_lt in Hlen.
  destruct (lookup_lt_is_Some_2 (face0 :: faces) i) as [face Hface]; [lia|].
  cbn [py_getitem]. rewrite Hface. cbn [mbind result_bind].
  assert (Hface_ok : face_ok face = true).
  { rewrite forallb_forall in Hall. apply Hall.
    apply list_elem_of_In. by eapply list_elem_of_lookup_2. }
  apply face_images_total, is_Ok_true in Hface_ok as [imgs Himgs].
  rewrite Himgs. apply face_images_Ok in Himgs. subst imgs.
  by unfold dict_getitem; simplify_map_eq.
Qed.

Lemma text_field_total (card : gmap string value) (field : string) :
  card_record_ok card = true → is_Ok (text_field card field) = true.
Proof.
  intros Hok. unfold text_field.
  destruct (truthy (dict_get card field)); [done|]. simpl.
  destruct (truthy (dict_get card "card_faces")) eqn:Ht; [|done].
  destruct (card_record_ok_faces _ Hok Ht) as (face0 & faces & Hf & Hall).
  rewrite (dict_getitem_truthy _ _ Ht), Hf. simpl.
  simpl in Hall. apply andb_true_iff in Hall as [H0 _].
  by destruct face0.
Qed.

(** On a record of the shape the specification describes the mapper does not
    fail: every lookup degrades to null. *)
Lemma map_scryfall_card_total (card : gmap string value) :
  card_record_ok card = true →
  map_scryfall_card card = Ok (mapped_card_spec card).
Proof.
  intros Hok.
  enough (Hm : ∃ m, map_scryfall_card card = Ok m).
  { destruct Hm as [m Hm]. by rewrite Hm, (map_scryfall_card_Ok _ _ Hm). }
  apply is_Ok_true. unfold map_scryfall_card.
  pose proof (nth_face_images_total card 0 Hok) as Hfront.
  pose proof (nth_face_images_total card 1 Hok) as Hback.
  assert (Hf : is_Ok
    (if truthy (dict_get card "image_uris")
     then
       uris ← dict_getitem card "image_uris";
       s ← py_get uris "small";
       uris ← dict_getitem card "image_uris";
       n ← py_get uris "normal";
       Ok (s, n)
     else
       c ← more_faces_than card 0;
       if c : bool
       then
         faces ← dict_getitem card "card_faces";
         face0 ← py_getitem faces 0;
         imgs0 ← _face_images face0;
         s ← dict_getitem imgs0 "small";
         n ← dict_getitem imgs0 "normal";
         Ok (s, n)
       else Ok (VNone, VNone)) = true).
  { destruct (truthy (dict_get card "image_uris")) eqn:Ht; [|exact Hfront].
    rewrite (dict_getitem_truthy _ _ Ht).
    unfold card_record_ok, optional_mapping in Hok. rewrite Ht in Hok.
    apply andb_true_iff in Hok as [Hu _].
    by destruct (dict_get card "image_uris"). }
  apply is_Ok_true in Hf as [[fs fn] ->].
  apply is_Ok_true in Hback as [[bs bn] Hback].
  change (Z.of_nat 1) with 1 in Hback. rewrite Hback.
  destruct (proj1 (is_Ok_true _) (text_field_total card "mana_cost" Hok)) as [mc ->].
  destruct (proj1 (is_Ok_true _) (text_field_total card "type_line" Hok)) as [tl ->].
  destruct (proj1 (is_Ok_true _) (text_field_total card "oracle_text" Hok)) as [ot ->].
  done.
Qed.

Lemma mapped_card_spec_text (card : gmap string value) (field : string) :
  field ∈ ["mana_cost"; "type_line"; "oracle_text"] →
  mapped_card_spec card !! field = Some (text_field_spec card field).
Proof.
  intros Hf. unfold mapped_card_spec.
  repeat (apply elem_of_cons in Hf as [->|Hf]; [by simplify_map_eq|]).
  by apply elem_of_nil in Hf.
Qed.

(** C1 (amended). For every raw card record in which the top-level
    [mana_cost], [type_line] or [oracle_text] is present and not empty, the
    mapped card carries that top-level value verbatim in the same field,
    whatever [card_faces] holds; on a record of the documented shape the
    mapper returns. *)
Theorem nonempty_text_field_verbatim
    (card : gmap string value) (field : string) (v : value) :
  field ∈ ["mana_cost"; "type_line"; "oracle_text"] →
  card !! field = Some v →
  truthy v = true →
  (card_record_ok card = true → is_Ok (map_scryfall_card card) = true)
  ∧ ∀ m, map_scryfall_card card = Ok m → m !! field = Some v.
Proof.
  intros Hfield Hv Ht. split.
  { intros Hok. by rewrite (map_scryfall_card_total _ Hok). }
  intros m Hm. rewrite (map_scryfall_card_Ok _ _ Hm).
  rewrite (mapped_card_spec_text _ _ Hfield). f_equal.
  unfold text_field_spec, dict_get. rewrite Hv. simpl. by rewrite Ht.
Qed.

(** C1 as worded fails: a top-level [mana_cost] that is present and empty is
    replaced by the first face's. *)
Lemma present_text_field_not_always_verbatim :
  ¬ present_text_field_is_verbatim.
Proof.
  intros H.
  specialize (H card_with_empty_mana_cost
                (mapped_card_spec card_with_empty_mana_cost)
                "mana_cost" (VStr "")).
  assert (Hm : mapped_card_spec card_with_empty_mana_cost !! "mana_cost"
               = Some (VStr "{R}")) by by vm_compute.
  rewrite Hm in H. discriminate H.
  - set_solver.
  - by vm_compute.
  - done.
  - by apply map_scryfall_card_total.
Qed.

(** C2 (amended). The front images are those of the top-level [image_uris]
    when it is present and not empty, otherwise those of face 0 when there is
    a face, otherwise null; the back images are those of face 1 only when
    there are two faces, otherwise null; and [has_back] is true exactly when
    one of the two back images is neither null nor empty. On a record of the
    documented shape the mapper returns. *)
Theorem mapped_card_images (card : gmap string value) :
  (card_record_ok card = true → is_Ok (map_scryfall_card card) = true)
  ∧ ∀ m, map_scryfall_card card = Ok m →
      m !! "image_front_small" = Some (front_images_spec card).1
      ∧ m !! "image_front_normal" = Some (front_images_spec card).2
      ∧ m !! "image_back_small" = Some (back_images_spec card).1
      ∧ m !! "image_back_normal" = Some (back_images_spec card).2
      ∧ (∃ b, m !! "has_back" = Some (VBool b))
      ∧ (m !! "has_back" = Some (VBool true)
         ↔ truthy (dict_get m "image_back_small") = true
           ∨ truthy (dict_get m "image_back_normal") = true).
Proof.
  split.
  { intros Hok. by rewrite (map_scryfall_card_total _ Hok). }
  intros m Hm. rewrite (map_scryfall_card_Ok _ _ Hm).
  unfold mapped_card_spec, dict_get. simplify_map_eq.
  repeat split; try done.
  - by eexists.
  - intros [= Hb]. by apply orb_true_iff.
  - intros Hb. apply orb_true_iff in Hb. by rewrite Hb.
Qed.

(** C2 as worded fails twice: an [image_uris] that is present and empty does
    not supply the front images, and a back image that is an empty string is
    not null yet leaves [has_back] false. *)
Lemma images_claim_fails_on_empty_values :
  ¬ front_images_from_present_uris ∧ ¬ has_back_iff_back_image_not_null.
Proof.
  split.
  - intros H.
    destruct (H card_with_empty_image_uris
                (mapped_card_spec card_with_empty_image_uris) ∅) as [Hs _].
    + by vm_compute.
    + by apply map_scryfall_card_total.
    + assert (Hm : mapped_card_spec card_with_empty_image_uris
                     !! "image_front_small" = Some (VStr "f0s")) by by vm_compute.
      rewrite Hm in Hs. discriminate Hs.
  - intros H.
    destruct (H card_with_empty_back_image
                (mapped_card_spec card_with_empty_back_image)) as [_ Hb].
    + by apply map_scryfall_card_total.
    + assert (Hm : mapped_card_spec card_with_empty_back_image !! "has_back"
                   = Some (VBool false)) by by vm_compute.
      rewrite Hm in Hb. discriminate Hb. left. by vm_compute.
Qed.

(* ================================================================= *)
(** * External Card Search Client: properties *)

Section SearchFacts.
Variable requests_get : string → gmap string value → Z → result Response.

(** The handler of [except requests.Timeout] runs for a timeout and for
    nothing else. *)
Lemma except_Timeout_spec {A} (body handler : result A) :
  (body = Raise Timeout → except_Timeout body handler = handler)
  ∧ (body ≠ Raise Timeout → except_Timeout body handler = body).
Proof.
  split.
  - by intros ->.
  - intros Hb. destruct body as [a|e]; [done|]. by destruct e.
Qed.

(** When the service answers with a status other than 200, the error carries
    the service's own status. *)
Lemma search_cards_upstream_error (q : string) (page : Z) (resp : Response) :
  requests_get (SCRYFALL_API +:+ "/cards/search")
               {[ "q" := VStr q; "page" := VInt page ]} 10 = Ok resp →
  status_code resp ≠ 200 →
  ∃ detail,
    search_cards requests_get q page = Raise (HTTPException (status_code resp) detail).
Proof.
  intros Hresp Hcode. unfold search_cards. rewrite Hresp. simpl.
  rewrite bool_decide_eq_true_2 by done.
  destruct (except_Exception _ _) as [detail|e] eqn:Hd.
  - by exists detail.
  - unfold except_Exception in Hd. by destruct (mbind _ _).
Qed.

(** C5. For every card search whose outbound call exceeds the timeout, the
    search fails with the fixed status code 504 and the detail
    "Scryfall request timed out", whatever the query and the page. *)
Theorem search_cards_timeout (q : string) (page : Z) :
  requests_get (SCRYFALL_API +:+ "/cards/search")
               {[ "q" := VStr q; "page" := VInt page ]} 10 = Raise Timeout →
  search_cards requests_get q page
    = Raise (HTTPException 504 (VStr "Scryfall request timed out"))
  ∧ http_status (search_cards requests_get q page) = 504.
Proof.
  intros Hget.
  assert (Hs : search_cards requests_get q page
               = Raise (HTTPException 504 (VStr "Scryfall request timed out"))).
  { unfold search_cards. rewrite Hget. simpl mbind.
    by apply except_Timeout_spec. }
  by rewrite Hs.
Qed.

End SearchFacts.

(* ================================================================= *)
(** * Deck creation: properties *)

Lemma validate_format_Some (v : value) (s : string) :
  Deck.validate_format v = Some s ↔ v = VStr s ∧ s ∈ Deck.formats.
Proof.
  unfold Deck.validate_format. destruct v; simpl; try (split; [done|by intros [? _]]).
  case_bool_decide as Hs; split.
  - by intros [= <-].
  - by intros [[= <-] _].
  - done.
  - intros [[= <-] ?]. done.
Qed.

Lemma validate_name_Some (v : value) (s : string) :
  validate_str v ≫= length_between 1 120 = Some s
  ↔ v = VStr s ∧ (1 ≤ str_len s ≤ 120)%nat.
Proof.
  destruct v; simpl; try (split; [done|by intros [? _]]).
  unfold length_between. case_bool_decide as Hs; split.
  - by intros [= <-].
  - by intros [[= <-] _].
  - done.
  - intros [[= <-] ?]. done.
Qed.

Section CreateFacts.
Context `{!Coercions, !Database}.

Lemma Deck_validate_unfold (body : gmap string value) :
  Deck.validate (VDict body) =
    name ← required (λ v, validate_str v ≫= length_between 1 120) (body !! "name");
    format ← with_default (optional Deck.validate_format) (Some "casual")
               (body !! "format");
    validate_rest body name format.
Proof. reflexivity. Qed.

Lemma validate_rest_format (body : gmap string value) (name : string)
    (format : option string) (deck : Deck.t) :
  validate_rest body name format = Some deck →
  Deck.format deck = format
  ∧ ∀ format', ∃ deck', validate_rest body name format' = Some deck'
                        ∧ Deck.format deck' = format'.
Proof.
  unfold validate_rest. intros Hv.
  destruct (with_default _ None (body !! "description")) as [d|]; [|done].
  destruct (with_default _ [] (body !! "cards")) as [c|]; [|done].
  destruct (with_default _ None (body !! "commander_id")) as [ci|]; [|done].
  destruct (with_default _ None (body !! "commander_name")) as [cn|]; [|done].
  destruct (with_default _ None (body !! "commander_colors")) as [cc|]; [|done].
  simpl in *. injection Hv as <-. split; [done|].
  intros format'. by eexists.
Qed.

Lemma validate_rest_insert_format (body : gmap string value) (v : value)
    (name : string) (format : option string) :
  validate_rest (<["format" := v]> body) name format = validate_rest body name format.
Proof. unfold validate_rest. by rewrite !lookup_insert_ne. Qed.

Lemma post_decks_invalid (db : option store) (body : value) :
  Deck.validate body = None →
  post_decks db body = (Raise RequestValidationError, db).
Proof. unfold post_decks. by intros ->. Qed.

Lemma post_decks_valid (st : store) (body : value) (deck : Deck.t) :
  Deck.validate body = Some deck →
  post_decks (Some st) body
    = (Ok {[ "id" := VStr (create_document "deck" deck st).1 ]},
       Some (create_document "deck" deck st).2).
Proof.
  unfold post_decks, create_deck. intros ->.
  by destruct (create_document "deck" deck st).
Qed.

(** C6 (amended). Creating a deck fails validation for every body whose
    [format] is given, is not null and is not one of the enumerated formats,
    and for every body whose [name] is empty or longer than 120 characters.
    It succeeds, with [format] equal to "casual", for every body that omits
    [format] and is otherwise valid (valid once a listed format is added);
    an explicit null [format] is accepted and kept as null. *)
Theorem create_deck_validation (db : option store) (body : gmap string value) :
  ((∃ v, body !! "format" = Some v ∧ v ≠ VNone
         ∧ ∀ s, s ∈ Deck.formats → v ≠ VStr s)
   ∨ (∃ s, body !! "name" = Some (VStr s)
           ∧ (str_len s = 0 ∨ 120 < str_len s)%nat) →
   post_decks db (VDict body) = (Raise RequestValidationError, db))
  ∧ ((∃ s, s ∈ Deck.formats
           ∧ is_Some (Deck.validate (VDict (<["format" := VStr s]> body)))) →
     (body !! "format" = None →
      ∀ st, ∃ deck,
        Deck.validate (VDict body) = Some deck
        ∧ Deck.format deck = Some "casual"
        ∧ post_decks (Some st) (VDict body)
          = (Ok {[ "id" := VStr (create_document "deck" deck st).1 ]},
             Some (create_document "deck" deck st).2))
     ∧ (body !! "format" = Some VNone →
        ∃ deck, Deck.validate (VDict body) = Some deck
                ∧ Deck.format deck = None)).
Proof.
  split.
  - intros Hbad. apply post_decks_invalid. rewrite Deck_validate_unfold.
    destruct Hbad as [(v & Hv & Hnone & Hout)|(s & Hs & Hlen)].
    + destruct (required _ (body !! "name")) as [name|]; [|done]. simpl.
      rewrite Hv. simpl.
      destruct v; try done; simpl.
      destruct (Deck.validate_format _) as [s'|] eqn:Hf; [|done].
      apply validate_format_Some in Hf as [[= <-] Hin]. by destruct (Hout _ Hin).
    + rewrite Hs. simpl. unfold length_between.
      rewrite bool_decide_eq_false_2 by lia. done.
  - intros (s & Hs & [deck0 Hvalid]).
    rewrite Deck_validate_unfold, lookup_insert_eq in Hvalid.
    rewrite lookup_insert_ne in Hvalid by done.
    destruct (required _ (body !! "name")) as [name|] eqn:Hname; [|done].
    simpl in Hvalid.
    destruct (Deck.validate_format (VStr s)) as [s'|]; [|done]. simpl in Hvalid.
    rewrite validate_rest_insert_format in Hvalid.
    apply validate_rest_format in Hvalid as [_ Hrest].
    split.
    + intros Hfmt st. destruct (Hrest (Some "casual")) as (deck & Hdeck & Hcasual).
      exists deck.
      assert (Hv : Deck.validate (VDict body) = Some deck).
      { rewrite Deck_validate_unfold, Hname, Hfmt. done. }
      split; [done|]. split; [done|]. by apply post_decks_valid.
    + intros Hfmt. destruct (Hrest None) as (deck & Hdeck & Hnull).
      exists deck. split; [|done].
      rewrite Deck_validate_unfold, Hname, Hfmt. done.
Qed.

End CreateFacts.

(* ================================================================= *)
(** * The store: properties *)

(** Equality of values is decidable, by [value_eqb]. *)
Lemma value_eq_dec : EqDecision value.
Proof.
  intros a b. destruct (value_eqb a b) eqn:Hab.
  - left. by apply value_eqb_eq.
  - right. intros Heq. apply value_eqb_eq in Heq. congruence.
Qed.

#[local] Existing Instance value_eq_dec.

(** A [$set] leaves a document as it was exactly when every field it lists
    already holds the listed value. *)
Lemma apply_set_unchanged (set doc : gmap string value) :
  apply_set set doc = doc ↔ ∀ k v, set !! k = Some v → doc !! k = Some v.
Proof.
  unfold apply_set. rewrite <- map_subseteq_spec. split.
  - intros <-. apply map_union_subseteq_l.
  - apply map_subseteq_union.
Qed.

Lemma apply_set_changed (set doc : gmap string value) :
  apply_set set doc ≠ doc ↔ ∃ k v, set !! k = Some v ∧ doc !! k ≠ Some v.
Proof.
  rewrite apply_set_unchanged. split.
  - intros Hnot.
    change (¬ map_Forall (λ k v, doc !! k = Some v) set) in Hnot.
    apply map_not_Forall in Hnot; [|apply _].
    destruct Hnot as (k & v & Hk & Hv). eauto.
  - intros (k & v & Hk & Hv) Hall. by apply Hv, Hall.
Qed.

Lemma update_first_found (oid : ObjectId) (set doc : gmap string value)
    (docs : list (gmap string value)) :
  List.find (has_id oid) docs = Some doc →
  (update_first oid set docs).2
    = {| matched_count := 1;
         modified_count := if dict_eqb (apply_set set doc) doc then 0 else 1 |}.
Proof.
  induction docs as [|d docs IH]; simpl; [done|].
  destruct (has_id oid d).
  - by intros [= ->].
  - intros Hfind. specialize (IH Hfind).
    by destruct (update_first oid set docs).
Qed.

Lemma update_first_missing (oid : ObjectId) (set : gmap string value)
    (docs : list (gmap string value)) :
  List.find (has_id oid) docs = None →
  update_first oid set docs = (docs, {| matched_count := 0; modified_count := 0 |}).
Proof.
  induction docs as [|d docs IH]; simpl; [done|].
  destruct (has_id oid d); [done|].
  intros Hfind. by rewrite (IH Hfind).
Qed.

Lemma no_new_null_refl (docs : list (gmap string value)) :
  Forall2 (λ d d' : gmap string value,
             ∀ k, d' !! k = Some VNone → d !! k = Some VNone) docs docs.
Proof. induction docs; by constructor. Qed.

(** A [$set] that lists no null writes no null: document by document, a
    field that is null after the update was null before. *)
Lemma update_first_no_new_null (oid : ObjectId) (set : gmap string value)
    (docs : list (gmap string value)) :
  (∀ k, set !! k ≠ Some VNone) →
  Forall2 (λ d d' : gmap string value,
             ∀ k, d' !! k = Some VNone → d !! k = Some VNone)
          docs (update_first oid set docs).1.
Proof.
  intros Hset. induction docs as [|d docs IH]; simpl; [constructor|].
  destruct (has_id oid d).
  - simpl. constructor.
    + intros k Hk. unfold apply_set in Hk.
      apply lookup_union_Some_raw in Hk as [Hk|[_ Hk]]; [by destruct (Hset k)|done].
    + apply no_new_null_refl.
  - destruct (update_first oid set docs) as [docs' res]. simpl in *.
    by constructor.
Qed.

(* ================================================================= *)
(** * Identifiers: properties *)

Lemma ObjectId_new_invalid (s : string) :
  ObjectId_is_valid s = false → ObjectId_new s = Raise InvalidId.
Proof.
  unfold ObjectId_is_valid, ObjectId_new.
  case_bool_decide; [|done]. by destruct (bytes_fromhex s).
Qed.

Lemma ObjectId_new_Ok (s : string) (oid : ObjectId) :
  ObjectId_new s = Ok oid
  ↔ str_len s = 24%nat ∧ bytes_fromhex s = Some (oid_hex oid).
Proof.
  unfold ObjectId_new. destruct oid as [hex]. simpl.
  case_bool_decide as Hlen.
  - destruct (bytes_fromhex s) as [hex'|]; split.
    + by intros [= ->].
    + by intros [_ [= ->]].
    + done.
    + by intros [_ ?].
  - split; [done|]. by intros [? _].
Qed.

(** A hexadecimal digit is an ASCII character and no white space. *)
Lemma is_hex_digit_plain (c : Ascii.ascii) :
  is_hex_digit c = true → is_space c = false ∧ is_continuation_byte c = false.
Proof.
  unfold is_hex_digit, is_space, is_continuation_byte.
  generalize (Ascii.nat_of_ascii c). intros n Hn.
  repeat (apply orb_true_iff in Hn as [Hn|Hn]);
    apply andb_true_iff in Hn as [Hlo%Nat.leb_le Hhi%Nat.leb_le];
    (split; [apply orb_false_iff; split;
               [apply andb_false_iff; rewrite !Nat.leb_gt; lia
               |apply Nat.eqb_neq; lia]
            |apply andb_false_iff; rewrite Nat.leb_gt, Nat.ltb_ge; lia]).
Qed.

(** Hexadecimal digits alone, an even number of them, are read as they are,
    in lower case. *)
Lemma bytes_fromhex_digits (n : nat) (s : string) :
  String.length s = (2 * n)%nat →
  string_forallb is_hex_digit s = true →
  bytes_fromhex s = Some (string_map lower_hex_digit s).
Proof.
  revert s. induction n as [|n IH]; intros s Hlen Hhex.
  - by destruct s.
  - destruct s as [|c [|d s]]; simpl in Hlen; try lia.
    simpl in Hhex.
    apply andb_true_iff in Hhex as [Hc [Hd Hs]%andb_true_iff].
    cbn [bytes_fromhex string_map].
    destruct (is_hex_digit_plain c Hc) as [-> _].
    rewrite Hc, Hd. simpl. rewrite IH; [done|lia|done].
Qed.

(** The identifiers the program hands out, 24 hexadecimal digits, are
    accepted, and name the identifier whose string is the digits in lower
    case. *)
Lemma ObjectId_new_hex24 (s : string) :
  is_hex24 s = true →
  ObjectId_new s = Ok (Oid (string_map lower_hex_digit s)).
Proof.
  unfold is_hex24. intros [Hlen%bool_decide_eq_true Hhex]%andb_true_iff.
  apply ObjectId_new_Ok. simpl. split.
  - rewrite str_len_bytes; [done|]. clear Hlen.
    induction s as [|c s IH]; simpl in *; [done|].
    apply andb_true_iff in Hhex as [Hc Hs]. constructor; [|by apply IH].
    by destruct (is_hex_digit_plain c Hc).
  - by apply (bytes_fromhex_digits 12).
Qed.

(** Any other length is refused. *)
Lemma ObjectId_new_length (s : string) :
  str_len s ≠ 24%nat → ObjectId_new s = Raise InvalidId.
Proof. unfold ObjectId_new. intros Hlen. by rewrite bool_decide_eq_false_2. Qed.

(* ================================================================= *)
(** * The update payload: properties *)

Lemma set_unless_none_no_null (k : string) (o : option value)
    (d : gmap string value) :
  o ≠ Some VNone →
  (∀ k', d !! k' ≠ Some VNone) →
  ∀ k', set_unless_none k o d !! k' ≠ Some VNone.
Proof.
  intros Ho Hd k'. destruct o as [v|]; simpl; [|done].
  rewrite lookup_insert. case_decide; [congruence|done].
Qed.

(** The dump of an update payload binds no field to null. *)
Lemma update_dump_no_null (payload : DeckUpdate.t) (k : string) :
  DeckUpdate.model_dump_exclude_none payload !! k ≠ Some VNone.
Proof.
  revert k. unfold DeckUpdate.model_dump_exclude_none.
  repeat (apply set_unless_none_no_null; [by destruct payload as [[?|] [?|] [?|] [?|]]|]).
  intros k. by rewrite lookup_empty.
Qed.

(** The dump is empty exactly when no field is supplied. *)
Lemma update_dump_empty (payload : DeckUpdate.t) :
  DeckUpdate.model_dump_exclude_none payload = ∅
  ↔ payload = {| DeckUpdate.name := None; DeckUpdate.format := None;
                 DeckUpdate.description := None; DeckUpdate.cards := None |}.
Proof.
  split.
  - unfold DeckUpdate.model_dump_exclude_none.
    destruct payload as [[n|] [f|] [d|] [c|]]; simpl; try done;
      intros Hd; by apply insert_non_empty in Hd.
  - by intros ->.
Qed.

(* ================================================================= *)
(** * Deck endpoints: properties *)

Lemma update_deck_no_fields (st : store) (now : Z) (deck_id : string) :
  update_deck (Some st) now deck_id no_fields
    = (Ok {[ "updated" := VBool false ]}, Some st).
Proof. reflexivity. Qed.

Lemma update_deck_found (st : store) (now : Z) (deck_id : string)
    (oid : ObjectId) (doc : gmap string value) (payload : DeckUpdate.t) :
  ObjectId_new deck_id = Ok oid →
  List.find (has_id oid) (deck st) = Some doc →
  DeckUpdate.model_dump_exclude_none payload ≠ ∅ →
  (update_deck (Some st) now deck_id payload).1
    = Ok {[ "updated" :=
              VBool (negb (dict_eqb (apply_set (write_set now payload) doc) doc)) ]}.
Proof.
  intros Hoid Hfind Hdump. unfold update_deck.
  rewrite bool_decide_eq_false_2 by done. rewrite Hoid.
  unfold update_one.
  pose proof (update_first_found oid (write_set now payload) doc _ Hfind) as Hres.
  fold (write_set now payload).
  destruct (update_first oid (write_set now payload) (deck st)) as [docs res].
  simpl in Hres. subst res. simpl.
  by destruct (dict_eqb _ doc).
Qed.

(** C3 (amended). For every update of an existing deck that supplies at
    least one field, the returned flag is true exactly when the write set,
    which is the supplied fields together with the fresh [updated_at] stamp,
    changes the stored document; so it is true whenever the current time
    differs from the stored stamp, even if every supplied field equals the
    stored value. *)
Theorem updated_iff_write_set_changes_document
    (st : store) (now : Z) (deck_id : string) (oid : ObjectId)
    (doc : gmap string value) (payload : DeckUpdate.t) :
  ObjectId_new deck_id = Ok oid →
  List.find (has_id oid) (deck st) = Some doc →
  DeckUpdate.model_dump_exclude_none payload ≠ ∅ →
  ∃ b : bool,
    (update_deck (Some st) now deck_id payload).1 = Ok {[ "updated" := VBool b ]}
    ∧ (b = true ↔ ∃ k v, write_set now payload !! k = Some v ∧ doc !! k ≠ Some v)
    ∧ (doc !! "updated_at" ≠ Some (VDatetime now) → b = true).
Proof.
  intros Hoid Hfind Hdump. eexists. split; [by eapply update_deck_found|].
  assert (Hb : negb (dict_eqb (apply_set (write_set now payload) doc) doc) = true
               ↔ ∃ k v, write_set now payload !! k = Some v ∧ doc !! k ≠ Some v).
  { rewrite <- apply_set_changed, negb_true_iff, <- not_true_iff_false.
    by rewrite dict_eqb_eq. }
  split; [done|].
  intros Hstamp. apply Hb. exists "updated_at", (VDatetime now).
  split; [|done]. unfold write_set. by rewrite lookup_insert_eq.
Qed.

(** C3 as worded fails: writing the stored name again at a later time is
    reported as an update. *)
Lemma updated_without_a_supplied_field_differing :
  ¬ updated_iff_supplied_field_differs.
Proof.
  intros H.
  destruct (H burn_store 2000 "65f0c0ffee0123456789abcd" burn_id burn_doc
              rename_to_burn) as [Hupd _].
  - by vm_compute.
  - by vm_compute.
  - by apply insert_non_empty.
  - destruct Hupd as (k & v & Hk & Hv); [by vm_compute|].
    change (DeckUpdate.model_dump_exclude_none rename_to_burn)
      with (<["name" := VStr "Burn"]> (∅ : gmap string value)) in Hk.
    apply lookup_insert_Some in Hk as [[<- <-]|[_ Hk]]; [|by rewrite lookup_empty in Hk].
    apply Hv. by vm_compute.
Qed.

Section GetFacts.
Context `{!Builtins}.

(** C4 (amended). For every identifier from which no ObjectId can be built
    ([ObjectId(deck_id)] raises: the string is not 24 characters long, or is
    not made of pairs of hexadecimal digits, white space apart), reading a
    deck with the store configured lets the [InvalidId] error of the
    identifier's construction escape before any lookup, which the framework
    answers with status 500; an identifier that can be built and names no
    deck gets 404. The two cases differ in status. *)
Theorem invalid_id_is_not_a_404 (st : store) (bad : string) :
  ObjectId_is_valid bad = false →
  get_deck (Some st) bad = (Raise InvalidId, Some st)
  ∧ http_status (get_deck (Some st) bad).1 = 500
  ∧ ∀ good oid,
      ObjectId_new good = Ok oid →
      List.find (has_id oid) (deck st) = None →
      get_deck (Some st) good = (deck_not_found, Some (called (FindOne oid) st))
      ∧ http_status (get_deck (Some st) good).1 = 404.
Proof.
  intros Hbad.
  assert (Hget : get_deck (Some st) bad = (Raise InvalidId, Some st)).
  { unfold get_deck. by rewrite (ObjectId_new_invalid _ Hbad). }
  split; [done|]. split; [by rewrite Hget|].
  intros good oid Hgood Hfind.
  assert (Hnf : get_deck (Some st) good
                = (deck_not_found, Some (called (FindOne oid) st))).
  { unfold get_deck, find_one. by rewrite Hgood, Hfind. }
  split; [done|]. by rewrite Hnf.
Qed.

End GetFacts.

(** C4 as worded fails: on an empty store an identifier that cannot be built
    is answered with 500 and one that can with 404. *)
Lemma invalid_id_status_differs_from_not_found :
  ¬ invalid_id_status_is_not_found_status.
Proof.
  intros H.
  specialize (H sample_builtins empty_store "not-an-id" "0123456789abcdef01234567").
  assert (H500 : http_status
                   (@get_deck sample_builtins (Some empty_store) "not-an-id").1 = 500)
    by by vm_compute.
  assert (H404 : http_status
                   (@get_deck sample_builtins (Some empty_store)
                      "0123456789abcdef01234567").1 = 404)
    by by vm_compute.
  rewrite H500, H404 in H. discriminate H; by vm_compute.
Qed.

Section UpdateFacts.
Context `{!Coercions}.

Lemma optional_field_null_or_absent {A} (validate : value → option A)
    (input : option value) :
  input = None ∨ input = Some VNone →
  with_default (optional validate) None input = Some None.
Proof. by intros [->| ->]. Qed.

(** A body none of whose update fields holds a value validates to the
    payload with no fields. *)
Lemma validate_update_no_fields (body : gmap string value) :
  (∀ k, k ∈ update_fields → body !! k = None ∨ body !! k = Some VNone) →
  DeckUpdate.validate (VDict body) = Some no_fields.
Proof.
  intros Hb. unfold DeckUpdate.validate.
  rewrite !optional_field_null_or_absent; [done|..];
    apply Hb; unfold update_fields; set_solver.
Qed.

(** For the validator, a field given as null and a field left out are the
    same input. *)
Lemma validate_update_delete_null (body : gmap string value) (k : string) :
  k ∈ update_fields →
  body !! k = Some VNone →
  DeckUpdate.validate (VDict (delete k body)) = DeckUpdate.validate (VDict body).
Proof.
  intros Hk Hnull. unfold DeckUpdate.validate, update_fields in *.
  repeat (apply elem_of_cons in Hk as [->|Hk];
          [by rewrite lookup_delete_eq, !lookup_delete_ne, Hnull by done|]).
  by apply elem_of_nil in Hk.
Qed.

(** C7. For every update request whose body supplies no fields, with the
    store configured, the update returns [{updated: false}] without failing,
    and the store is left exactly as it was: the documents, with their time
    stamps and every other field, are unchanged and no driver call is made.
    Neither the identifier nor the existence of the deck is looked at. *)
Theorem update_without_fields_is_a_noop
    (st : store) (now : Z) (deck_id : string) (body : gmap string value) :
  (∀ k, k ∈ update_fields → body !! k = None) →
  put_deck (Some st) now deck_id (VDict body)
    = (Ok {[ "updated" := VBool false ]}, Some st)
  ∧ update_deck (Some st) now deck_id no_fields
    = (Ok {[ "updated" := VBool false ]}, Some st).
Proof.
  intros Hb. split; [|apply update_deck_no_fields].
  unfold put_deck. rewrite validate_update_no_fields by auto.
  apply update_deck_no_fields.
Qed.

(** An update never writes a null: document by document, a field that is
    null after the update was null before it. *)
Lemma update_deck_no_new_null (db : option store) (now : Z) (deck_id : string)
    (payload : DeckUpdate.t) (st st' : store) :
  db = Some st →
  (update_deck db now deck_id payload).2 = Some st' →
  Forall2 (λ d d' : gmap string value,
             ∀ k, d' !! k = Some VNone → d !! k = Some VNone)
          (deck st) (deck st').
Proof.
  intros -> Hst'. unfold update_deck in Hst'.
  case_bool_decide as Hdump; [injection Hst' as <-; apply no_new_null_refl|].
  destruct (ObjectId_new deck_id) as [oid|e];
    [|injection Hst' as <-; apply no_new_null_refl].
  unfold update_one in Hst'.
  pose proof (update_first_no_new_null oid (write_set now payload) (deck st)) as Hno.
  fold (write_set now payload) in Hst'.
  destruct (update_first oid (write_set now payload) (deck st)) as [docs res].
  assert (Hdocs : deck st' = docs).
  { by destruct (bool_decide (matched_count res = 0)); injection Hst' as <-. }
  rewrite Hdocs. simpl in Hno. apply Hno.
  intros k'. unfold write_set. rewrite lookup_insert.
  destruct (decide ("updated_at" = k')); [congruence|]. apply update_dump_no_null.
Qed.

(** C10. In every update request, a field supplied as null is treated as if
    it were left out: the request has the same outcome and effect without
    it; no null is ever among the fields written, so no field of a stored
    deck is reset to null by an update (document by document, a field that
    is null afterwards was null before); and a body whose supplied fields
    are all null, with the store configured, returns [{updated: false}] and
    leaves the store untouched. *)
Theorem null_update_field_is_omitted
    (db : option store) (now : Z) (deck_id : string) (body : gmap string value) :
  (∀ k, k ∈ update_fields → body !! k = Some VNone →
        put_deck db now deck_id (VDict body)
        = put_deck db now deck_id (VDict (delete k body)))
  ∧ (∀ payload, DeckUpdate.validate (VDict body) = Some payload →
       (∀ k, write_set now payload !! k ≠ Some VNone)
       ∧ ∀ st st', db = Some st →
           (put_deck db now deck_id (VDict body)).2 = Some st' →
           Forall2 (λ d d' : gmap string value,
                      ∀ k, d' !! k = Some VNone → d !! k = Some VNone)
                   (deck st) (deck st'))
  ∧ ((∀ k, k ∈ update_fields → body !! k = None ∨ body !! k = Some VNone) →
     ∀ st, db = Some st →
       put_deck db now deck_id (VDict body)
       = (Ok {[ "updated" := VBool false ]}, Some st)).
Proof.
  split; [|split].
  - intros k Hk Hnull. unfold put_deck.
    by rewrite validate_update_delete_null.
  - intros payload Hvalid. split.
    + intros k. unfold write_set. rewrite lookup_insert.
      destruct (decide ("updated_at" = k)); [congruence|]. apply update_dump_no_null.
    + intros st st' Hdb. unfold put_deck. rewrite Hvalid.
      by apply update_deck_no_new_null.
  - intros Hb st ->. unfold put_deck. rewrite validate_update_no_fields by done.
    apply update_deck_no_fields.
Qed.

End UpdateFacts.

(* ================================================================= *)
(** * Card endpoints: further properties *)

Lemma mapM_Ok {A B} (f : A → result B) (l : list A) (k : list B) :
  mapM f l = Ok k ↔ Forall2 (λ x y, f x = Ok y) l k.
Proof.
  revert k. induction l as [|x l IH]; intros k; simpl.
  - split.
    + intros [= <-]. constructor.
    + by intros ->%Forall2_nil_inv_l.
  - split.
    + intros H. apply bind_Ok in H as (y & Hy & H).
      apply bind_Ok in H as (ys & Hys & H). injection H as <-.
      constructor; [done|]. by apply IH.
    + intros (y & ys & Hy & Hys & ->)%Forall2_cons_inv_l.
      rewrite Hy. simpl. apply IH in Hys. by rewrite Hys.
Qed.

Section CardEndpointFacts.
Variable requests_get : string → gmap string value → Z → result Response.

(** X1. When the card service answers a search with a status other than
    200, the search fails with that very status, and with the [details] of
    the answer when the answer is a JSON object that has one, "Scryfall
    error" otherwise (no [details], a body that is not JSON, a body that is
    not an object). *)
Theorem search_cards_passes_status_on (q : string) (page : Z) (resp : Response) :
  requests_get (SCRYFALL_API +:+ "/cards/search")
               {[ "q" := VStr q; "page" := VInt page ]} 10 = Ok resp →
  status_code resp ≠ 200 →
  search_cards requests_get q page
    = Raise (HTTPException (status_code resp) (upstream_detail resp))
  ∧ http_status (search_cards requests_get q page) = status_code resp.
Proof.
  intros Hresp Hcode.
  assert (Hs : search_cards requests_get q page
               = Raise (HTTPException (status_code resp) (upstream_detail resp))).
  { unfold search_cards, upstream_detail. rewrite Hresp. simpl.
    rewrite bool_decide_eq_true_2 by done.
    destruct (json resp) as [body|e]; simpl; [|done].
    by destruct body. }
  by rewrite Hs.
Qed.

(** X2. When the service answers 200 with a JSON object whose [data] is a
    list of card records of the documented shape (or is absent), the search
    returns the envelope with one mapped card per record, in the order
    given, [has_more] defaulting to false and the other fields copied. *)
Theorem search_cards_maps_every_record
    (q : string) (page : Z) (resp : Response)
    (data : gmap string value) (cards : list (gmap string value)) :
  requests_get (SCRYFALL_API +:+ "/cards/search")
               {[ "q" := VStr q; "page" := VInt page ]} 10 = Ok resp →
  status_code resp = 200 →
  json resp = Ok (VDict data) →
  default (VList []) (data !! "data") = VList (VDict <$> cards) →
  Forall (λ card, card_record_ok card = true) cards →
  search_cards requests_get q page
    = Ok (search_envelope data ((VDict ∘ mapped_card_spec) <$> cards)).
Proof.
  intros Hresp Hcode Hjson Hdata Hcards.
  unfold search_cards. rewrite Hresp. simpl.
  rewrite bool_decide_eq_false_2 by (by intros ?). rewrite Hjson. simpl.
  rewrite Hdata. simpl.
  assert (Hmap : mapM map_scryfall_card_item (VDict <$> cards)
                 = Ok ((VDict ∘ mapped_card_spec) <$> cards)).
  { apply mapM_Ok. apply Forall2_fmap, Forall_Forall2_diag.
    eapply Forall_impl; [exact Hcards|]. intros card Hok. simpl.
    by rewrite (map_scryfall_card_total _ Hok). }
  rewrite Hmap. done.
Qed.

(** X3. The search returns a result only when the service answered 200
    with a JSON object, and then every item of [data] was mapped: the
    result holds exactly one mapped card per item, in order. One item that
    cannot be mapped fails the whole search. *)
Theorem search_cards_all_or_nothing (q : string) (page : Z)
    (r : gmap string value) :
  search_cards requests_get q page = Ok r →
  ∃ resp data items mapped,
    requests_get (SCRYFALL_API +:+ "/cards/search")
                 {[ "q" := VStr q; "page" := VInt page ]} 10 = Ok resp
    ∧ status_code resp = 200
    ∧ json resp = Ok (VDict data)
    ∧ py_iter (default (VList []) (data !! "data")) = Ok items
    ∧ Forall2 (λ item m, map_scryfall_card_item item = Ok m) items mapped
    ∧ r = search_envelope data mapped.
Proof.
  unfold search_cards.
  destruct (requests_get _ _ _) as [resp|e] eqn:Hresp; simpl; [|by destruct e].
  intros H. exists resp.
  case_bool_decide as Hcode.
  { destruct (except_Exception _ _) as [detail|e]; simpl in H;
      [discriminate H|by destruct e]. }
  destruct (json resp) as [body|e] eqn:Hjson; simpl in H; [|by destruct e].
  destruct body as [| | | | | |data| |]; simpl in H; try discriminate H.
  destruct (py_iter _) as [items|e] eqn:Hitems; simpl in H; [|by destruct e].
  destruct (mapM _ items) as [mapped|e] eqn:Hmapped; simpl in H; [|by destruct e].
  injection H as <-. exists data, items, mapped.
  by rewrite mapM_Ok in Hmapped.
Qed.

(** X4. Failures of the outbound call: the search turns only a timeout into
    504 and lets every other failure escape as it is; the single-card
    lookup has no handler at all, so there a timeout escapes too and is
    answered with 500, not 504. *)
Theorem outbound_failures_escape (e : exn) :
  (∀ q page,
     requests_get (SCRYFALL_API +:+ "/cards/search")
                  {[ "q" := VStr q; "page" := VInt page ]} 10 = Raise e →
     e ≠ Timeout →
     search_cards requests_get q page = Raise e)
  ∧ (∀ scryfall_id,
       requests_get (SCRYFALL_API +:+ "/cards/" +:+ scryfall_id) ∅ 10 = Raise e →
       get_card requests_get scryfall_id = Raise e
       ∧ (e = Timeout → http_status (get_card requests_get scryfall_id) = 500)).
Proof.
  split.
  - intros q page Hget He. unfold search_cards. rewrite Hget. simpl.
    by destruct e.
  - intros scryfall_id Hget.
    assert (Hg : get_card requests_get scryfall_id = Raise e).
    { unfold get_card. by rewrite Hget. }
    split; [done|]. intros ->. by rewrite Hg.
Qed.

(** X5. The single-card lookup: an answer other than 200 fails with the
    service's status and the fixed detail "Card not found", whatever the
    body says; an answer of 200 holding a card record of the documented
    shape returns the mapped card; an answer of 200 whose body is JSON but
    not an object fails. *)
Theorem get_card_outcomes (scryfall_id : string) (resp : Response) :
  requests_get (SCRYFALL_API +:+ "/cards/" +:+ scryfall_id) ∅ 10 = Ok resp →
  (status_code resp ≠ 200 →
   get_card requests_get scryfall_id
     = Raise (HTTPException (status_code resp) (VStr "Card not found")))
  ∧ (status_code resp = 200 →
     (∀ card, json resp = Ok (VDict card) → card_record_ok card = true →
              get_card requests_get scryfall_id = Ok (mapped_card_spec card))
     ∧ (∀ body, json resp = Ok body → is_dict body = false →
                get_card requests_get scryfall_id = Raise AttributeError)).
Proof.
  intros Hresp. unfold get_card. rewrite Hresp. simpl. split.
  - intros Hcode. by rewrite bool_decide_eq_true_2.
  - intros Hcode. rewrite bool_decide_eq_false_2 by (by intros ?). split.
    + intros card -> Hok. simpl. by apply map_scryfall_card_total.
    + intros body -> Hbody. simpl. by destruct body.
Qed.

End CardEndpointFacts.

(* ================================================================= *)
(** * The store: further properties *)

Lemma find_first_match {A} (P : A → bool) (l : list A) (x : A) :
  List.find P l = Some x →
  P x = true
  ∧ ∃ l1 l2, l = l1 ++ x :: l2 ∧ Forall (λ y, P y = false) l1.
Proof.
  induction l as [|y l IH]; simpl; [done|].
  destruct (P y) eqn:Hy.
  - intros [= ->]. split; [done|]. exists [], l. by split.
  - intros Hx. destruct (IH Hx) as (Hp & l1 & l2 & -> & Hl1).
    split; [done|]. exists (y :: l1), l2. split; [done|]. by constructor.
Qed.

Lemma find_app_no_match {A} (P : A → bool) (l1 l2 : list A) :
  Forall (λ y, P y = false) l1 → List.find P (l1 ++ l2) = List.find P l2.
Proof.
  induction 1 as [|y l1 Hy _ IH]; simpl; [done|]. by rewrite Hy.
Qed.

Lemma has_id_true (oid : ObjectId) (doc : gmap string value) :
  has_id oid doc = true ↔ doc !! "_id" = Some (VObjectId oid).
Proof.
  unfold has_id. destruct (doc !! "_id") as [[]|]; try (split; done || congruence).
  rewrite bool_decide_eq_true. split; congruence.
Qed.

Lemma update_first_at (oid : ObjectId) (set doc : gmap string value)
    (l1 l2 : list (gmap string value)) :
  Forall (λ d, has_id oid d = false) l1 →
  has_id oid doc = true →
  (update_first oid set (l1 ++ doc :: l2)).1 = l1 ++ apply_set set doc :: l2.
Proof.
  intros Hl1 Hdoc. induction Hl1 as [|d l1 Hd _ IH]; simpl.
  - by rewrite Hdoc.
  - rewrite Hd. destruct (update_first oid set (l1 ++ doc :: l2)). simpl in *.
    by rewrite IH.
Qed.

Lemma delete_first_at (oid : ObjectId) (doc : gmap string value)
    (l1 l2 : list (gmap string value)) :
  Forall (λ d, has_id oid d = false) l1 →
  has_id oid doc = true →
  delete_first oid (l1 ++ doc :: l2) = (l1 ++ l2, {| deleted_count := 1 |}).
Proof.
  intros Hl1 Hdoc. induction Hl1 as [|d l1 Hd _ IH]; simpl.
  - by rewrite Hdoc.
  - by rewrite Hd, IH.
Qed.

Lemma delete_first_missing (oid : ObjectId) (docs : list (gmap string value)) :
  List.find (has_id oid) docs = None →
  delete_first oid docs = (docs, {| deleted_count := 0 |}).
Proof.
  induction docs as [|d docs IH]; simpl; [done|].
  destruct (has_id oid d); [done|]. intros Hf. by rewrite (IH Hf).
Qed.

(** The dump of an update payload, field by field. *)
Lemma update_dump_lookup (payload : DeckUpdate.t) (k : string) :
  DeckUpdate.model_dump_exclude_none payload !! k = supplied payload k.
Proof.
  unfold DeckUpdate.model_dump_exclude_none, supplied, set_unless_none.
  destruct payload as [[n|] [f|] [d|] [c|]]; simpl;
    repeat case_decide; by simplify_map_eq.
Qed.

Lemma write_set_lookup (now : Z) (payload : DeckUpdate.t)
    (doc : gmap string value) (k : string) :
  apply_set (write_set now payload) doc !! k = updated_document now payload doc k.
Proof.
  unfold apply_set, write_set, updated_document.
  rewrite lookup_union, lookup_insert, update_dump_lookup.
  destruct (decide ("updated_at" = k)) as [<-|Hk].
  - rewrite decide_True by done. by destruct (doc !! "updated_at").
  - rewrite decide_False by done.
    by destruct (supplied payload k), (doc !! k).
Qed.

(* ================================================================= *)
(** * Deck endpoints: further properties *)

(** X6. Deleting a deck with a well-formed identifier never fails: the flag
    says whether a deck with that identifier was stored; when one was, the
    first such document is removed and every other document is kept, in
    order; when none was, the documents are left as they were. One driver
    call is made either way. *)
Theorem delete_deck_removes_first_match
    (st : store) (deck_id : string) (oid : ObjectId) :
  ObjectId_new deck_id = Ok oid →
  ∃ (b : bool) (docs : list (gmap string value)),
    delete_deck (Some st) deck_id
      = (Ok {[ "deleted" := VBool b ]},
         Some {| deck := docs; calls := calls st ++ [DeleteOne oid] |})
    ∧ (List.find (has_id oid) (deck st) = None → b = false ∧ docs = deck st)
    ∧ (∀ doc, List.find (has_id oid) (deck st) = Some doc →
         b = true
         ∧ ∃ l1 l2, deck st = l1 ++ doc :: l2
                    ∧ Forall (λ d, has_id oid d = false) l1
                    ∧ docs = l1 ++ l2).
Proof.
  intros Hoid. unfold delete_deck, delete_one. rewrite Hoid.
  destruct (List.find (has_id oid) (deck st)) as [doc|] eqn:Hfind.
  - destruct (find_first_match _ _ _ Hfind) as (Hdoc & l1 & l2 & Hdocs & Hl1).
    rewrite Hdocs, (delete_first_at _ _ _ _ Hl1 Hdoc). simpl.
    exists true, (l1 ++ l2). split; [done|]. split; [done|].
    intros ? [= <-]. split; [done|]. by exists l1, l2.
  - rewrite (delete_first_missing _ _ Hfind). simpl.
    exists false, (deck st). by repeat split.
Qed.

Section ComposeFacts.
Context `{!Builtins}.

Lemma get_deck_returns
    (st : store) (deck_id : string) (oid : ObjectId) (doc : gmap string value) :
  ObjectId_new deck_id = Ok oid →
  List.find (has_id oid) (deck st) = Some doc →
  get_deck (Some st) deck_id
    = (Ok (Some (external_form <$> <["id" := VStr (oid_hex oid)]> (delete "_id" doc))),
       Some (called (FindOne oid) st)).
Proof.
  intros Hoid Hfind.
  destruct (find_first_match _ _ _ Hfind) as (Hdoc%has_id_true & _).
  assert (Hne : doc ≠ ∅).
  { intros ->. by rewrite lookup_empty in Hdoc. }
  unfold get_deck, find_one, no_document. rewrite Hoid, Hfind.
  rewrite bool_decide_eq_false_2 by done.
  rewrite (serialize_doc_nonempty doc Hne). unfold dict_get. by rewrite Hdoc.
Qed.

Lemma get_deck_missing (st : store) (deck_id : string) (oid : ObjectId) :
  ObjectId_new deck_id = Ok oid →
  List.find (has_id oid) (deck st) = None →
  get_deck (Some st) deck_id = (deck_not_found, Some (called (FindOne oid) st)).
Proof.
  intros Hoid Hfind. unfold get_deck, find_one. by rewrite Hoid, Hfind.
Qed.

(** X7. Reading a stored deck by a well-formed identifier returns the
    document in its external form: the identifier as the string [id], no
    [_id], and every other field with identifiers turned into strings. The
    documents of the store are not changed; one driver call is made. *)
Theorem get_deck_found
    (st : store) (deck_id : string) (oid : ObjectId) (doc : gmap string value) :
  ObjectId_new deck_id = Ok oid →
  List.find (has_id oid) (deck st) = Some doc →
  ∃ d : gmap string value,
    get_deck (Some st) deck_id = (Ok (Some d), Some (called (FindOne oid) st))
    ∧ d !! "id" = Some (VStr (oid_hex oid))
    ∧ d !! "_id" = None
    ∧ ∀ k, k ≠ "_id" → k ≠ "id" → d !! k = external_form <$> doc !! k.
Proof.
  intros Hoid Hfind. eexists. split; [by apply get_deck_returns|].
  split; [|split].
  - by rewrite lookup_fmap, lookup_insert_eq.
  - by rewrite lookup_fmap, lookup_insert_ne, lookup_delete_eq.
  - intros k H1 H2. by rewrite lookup_fmap, lookup_insert_ne, lookup_delete_ne.
Qed.

Lemma find_no_match {A} (P : A → bool) (l : list A) :
  Forall (λ y, P y = false) l → List.find P l = None.
Proof. induction 1 as [|y l Hy _ IH]; simpl; [done|]. by rewrite Hy. Qed.

Lemma filter_no_match {A} (P : A → bool) (l : list A) :
  Forall (λ y, P y = false) l → List.filter P l = [].
Proof. induction 1 as [|y l Hy _ IH]; simpl; [done|]. by rewrite Hy. Qed.

Lemma filter_nil_no_match {A} (P : A → bool) (l : list A) :
  List.filter P l = [] → Forall (λ y, P y = false) l.
Proof.
  induction l as [|y l IH]; simpl; [constructor|].
  destruct (P y) eqn:Hy; [done|]. intros Hl. constructor; auto.
Qed.

(** After a deletion no document with the identifier is left, provided at
    most one document had it. *)
Lemma delete_deck_leaves_none (st : store) (deck_id : string) (oid : ObjectId) :
  ObjectId_new deck_id = Ok oid →
  (length (List.filter (has_id oid) (deck st)) ≤ 1)%nat →
  ∃ st', (delete_deck (Some st) deck_id).2 = Some st'
         ∧ List.find (has_id oid) (deck st') = None.
Proof.
  intros Hoid Huniq. unfold delete_deck, delete_one. rewrite Hoid.
  destruct (List.find (has_id oid) (deck st)) as [doc|] eqn:Hfind.
  - destruct (find_first_match _ _ _ Hfind) as (Hdoc & l1 & l2 & Hdocs & Hl1).
    rewrite Hdocs, (delete_first_at _ _ _ _ Hl1 Hdoc). simpl.
    eexists. split; [done|]. simpl.
    rewrite Hdocs, List.filter_app, (filter_no_match _ _ Hl1) in Huniq.
    simpl in Huniq. rewrite Hdoc in Huniq. simpl in Huniq.
    rewrite (find_app_no_match _ _ _ Hl1). apply find_no_match, filter_nil_no_match.
    destruct (List.filter (has_id oid) l2); [done|simpl in Huniq; lia].
  - rewrite (delete_first_missing _ _ Hfind). simpl. eexists. by split.
Qed.

(** X8. Deleting and then reading: once a deck is deleted, reading it by the
    same identifier is answered "Deck not found" (404) and deleting it again
    returns [{deleted: false}]; this needs the identifier to name at most
    one stored document, which the store guarantees of [_id]. *)
Theorem delete_then_get_is_not_found
    (st : store) (deck_id : string) (oid : ObjectId) :
  ObjectId_new deck_id = Ok oid →
  (length (List.filter (has_id oid) (deck st)) ≤ 1)%nat →
  (get_deck (delete_deck (Some st) deck_id).2 deck_id).1 = deck_not_found
  ∧ (delete_deck (delete_deck (Some st) deck_id).2 deck_id).1
    = Ok {[ "deleted" := VBool false ]}.
Proof.
  intros Hoid Huniq.
  destruct (delete_deck_leaves_none st deck_id oid Hoid Huniq) as (st' & -> & Hnone).
  split.
  - by rewrite (get_deck_missing _ _ _ Hoid Hnone).
  - unfold delete_deck, delete_one. rewrite Hoid.
    by rewrite (delete_first_missing _ _ Hnone).
Qed.

(** The state an update leaves when the deck exists. *)
Lemma update_deck_found_state
    (st : store) (now : Z) (deck_id : string) (oid : ObjectId)
    (doc : gmap string value) (payload : DeckUpdate.t) :
  ObjectId_new deck_id = Ok oid →
  List.find (has_id oid) (deck st) = Some doc →
  DeckUpdate.model_dump_exclude_none payload ≠ ∅ →
  ∃ l1 l2,
    deck st = l1 ++ doc :: l2
    ∧ Forall (λ d, has_id oid d = false) l1
    ∧ (update_deck (Some st) now deck_id payload).2
      = Some {| deck := l1 ++ apply_set (write_set now payload) doc :: l2;
                calls := calls st ++ [UpdateOne oid (write_set now payload)] |}.
Proof.
  intros Hoid Hfind Hdump.
  destruct (find_first_match _ _ _ Hfind) as (Hdoc & l1 & l2 & Hdocs & Hl1).
  exists l1, l2. split; [done|]. split; [done|].
  unfold update_deck. rewrite bool_decide_eq_false_2 by done. rewrite Hoid.
  unfold update_one. fold (write_set now payload).
  pose proof (update_first_found oid (write_set now payload) doc _ Hfind) as Hres.
  pose proof (update_first_at oid (write_set now payload) doc l1 l2 Hl1 Hdoc) as Hat.
  rewrite <- Hdocs in Hat.
  destruct (update_first oid (write_set now payload) (deck st)) as [docs res].
  simpl in Hres, Hat. by subst res docs.
Qed.

Lemma updated_document_keeps_id
    (now : Z) (payload : DeckUpdate.t) (doc : gmap string value) (oid : ObjectId) :
  has_id oid doc = true →
  has_id oid (apply_set (write_set now payload) doc) = true.
Proof.
  rewrite !has_id_true. intros Hid. by rewrite write_set_lookup.
Qed.

(** X9. An update of an existing deck rewrites that document only, and in it
    only the time stamp and the fields the payload supplies: [updated_at]
    becomes the current time, a supplied field takes the supplied value, and
    every other field, [_id] included, keeps what was stored. The other
    documents keep their place and content. *)
Theorem update_deck_changes_only_supplied_fields
    (st : store) (now : Z) (deck_id : string) (oid : ObjectId)
    (doc : gmap string value) (payload : DeckUpdate.t) :
  ObjectId_new deck_id = Ok oid →
  List.find (has_id oid) (deck st) = Some doc →
  DeckUpdate.model_dump_exclude_none payload ≠ ∅ →
  ∃ l1 l2 doc',
    deck st = l1 ++ doc :: l2
    ∧ Forall (λ d, has_id oid d = false) l1
    ∧ (update_deck (Some st) now deck_id payload).2
      = Some {| deck := l1 ++ doc' :: l2;
                calls := calls st ++ [UpdateOne oid (write_set now payload)] |}
    ∧ (∀ k, doc' !! k = updated_document now payload doc k)
    ∧ doc' !! "_id" = Some (VObjectId oid).
Proof.
  intros Hoid Hfind Hdump.
  destruct (update_deck_found_state st now deck_id oid doc payload Hoid Hfind Hdump)
    as (l1 & l2 & Hdocs & Hl1 & Hst).
  exists l1, l2, (apply_set (write_set now payload) doc).
  split; [done|]. split; [done|]. split; [done|]. split.
  - intros k. apply write_set_lookup.
  - apply has_id_true, updated_document_keeps_id.
    by destruct (find_first_match _ _ _ Hfind).
Qed.

(** X10. An update of a deck that does not exist, with a well-formed
    identifier and at least one field, is answered "Deck not found" (404)
    after the driver call; nothing is inserted and no document is changed. *)
Theorem update_deck_missing_is_not_found
    (st : store) (now : Z) (deck_id : string) (oid : ObjectId)
    (payload : DeckUpdate.t) :
  ObjectId_new deck_id = Ok oid →
  List.find (has_id oid) (deck st) = None →
  DeckUpdate.model_dump_exclude_none payload ≠ ∅ →
  update_deck (Some st) now deck_id payload
    = (deck_not_found,
       Some {| deck := deck st;
               calls := calls st ++ [UpdateOne oid (write_set now payload)] |})
  ∧ http_status (update_deck (Some st) now deck_id payload).1 = 404.
Proof.
  intros Hoid Hfind Hdump.
  assert (Hu : update_deck (Some st) now deck_id payload
    = (deck_not_found,
       Some {| deck := deck st;
               calls := calls st ++ [UpdateOne oid (write_set now payload)] |})).
  { unfold update_deck. rewrite bool_decide_eq_false_2 by done. rewrite Hoid.
    unfold update_one. fold (write_set now payload).
    by rewrite (update_first_missing _ _ _ Hfind). }
  by rewrite Hu.
Qed.

(** X11. Updating and then reading: after an update of an existing deck,
    reading it by the same identifier returns the document with the new
    time stamp, the supplied fields at their new values and the other
    fields as stored before, all in external form. *)
Theorem update_then_get_returns_new_values
    (st : store) (now : Z) (deck_id : string) (oid : ObjectId)
    (doc : gmap string value) (payload : DeckUpdate.t) :
  ObjectId_new deck_id = Ok oid →
  List.find (has_id oid) (deck st) = Some doc →
  DeckUpdate.model_dump_exclude_none payload ≠ ∅ →
  ∃ d : gmap string value,
    (get_deck (update_deck (Some st) now deck_id payload).2 deck_id).1 = Ok (Some d)
    ∧ d !! "id" = Some (VStr (oid_hex oid))
    ∧ d !! "updated_at" = Some (VDatetime now)
    ∧ (∀ s, DeckUpdate.name payload = Some s → d !! "name" = Some (VStr s))
    ∧ ∀ k, k ≠ "_id" → k ≠ "id" →
           d !! k = external_form <$> updated_document now payload doc k.
Proof.
  intros Hoid Hfind Hdump.
  destruct (update_deck_found_state st now deck_id oid doc payload Hoid Hfind Hdump)
    as (l1 & l2 & Hdocs & Hl1 & ->).
  assert (Hid : has_id oid (apply_set (write_set now payload) doc) = true).
  { apply updated_document_keeps_id. by destruct (find_first_match _ _ _ Hfind). }
  assert (Hfind' : List.find (has_id oid)
                     (l1 ++ apply_set (write_set now payload) doc :: l2)
                   = Some (apply_set (write_set now payload) doc)).
  { rewrite (find_app_no_match _ _ _ Hl1). simpl. by rewrite Hid. }
  eexists. split.
  { erewrite get_deck_returns; [done..|]. exact Hfind'. }
  assert (Hk : ∀ k, k ≠ "_id" → k ≠ "id" →
    (external_form <$> <["id" := VStr (oid_hex oid)]>
       (delete "_id" (apply_set (write_set now payload) doc))) !! k
    = external_form <$> updated_document now payload doc k).
  { intros k H1 H2.
    by rewrite lookup_fmap, lookup_insert_ne, lookup_delete_ne, write_set_lookup. }
  split; [by rewrite lookup_fmap, lookup_insert_eq|].
  split; [by rewrite Hk|]. split; [|done].
  intros s Hs. rewrite Hk by done. unfold updated_document, supplied.
  simpl. by rewrite Hs.
Qed.

(** X12. An identifier from which no ObjectId can be built: deleting, and
    updating with at least one field, let the [InvalidId] error of the
    identifier's construction escape (status 500) before any driver call,
    leaving the store as it was. *)
Theorem malformed_id_escapes_delete_and_update
    (st : store) (now : Z) (bad : string) (payload : DeckUpdate.t) :
  ObjectId_is_valid bad = false →
  delete_deck (Some st) bad = (Raise InvalidId, Some st)
  ∧ (DeckUpdate.model_dump_exclude_none payload ≠ ∅ →
     update_deck (Some st) now bad payload = (Raise InvalidId, Some st))
  ∧ http_status (delete_deck (Some st) bad).1 = 500.
Proof.
  intros Hbad. pose proof (ObjectId_new_invalid _ Hbad) as Hnew.
  assert (Hd : delete_deck (Some st) bad = (Raise InvalidId, Some st)).
  { unfold delete_deck. by rewrite Hnew. }
  split; [done|]. split; [|by rewrite Hd].
  intros Hdump. unfold update_deck.
  rewrite bool_decide_eq_false_2 by done. by rewrite Hnew.
Qed.

End ComposeFacts.

(* ================================================================= *)
(** * Request models: further properties *)

Lemma optional_Some {A} (validate : value → option A) (dflt : option A)
    (input : option value) (o : option A) (P : A → Prop) :
  (∀ v x, validate v = Some x → P x) →
  (∀ x, dflt = Some x → P x) →
  with_default (optional validate) dflt input = Some o →
  ∀ x, o = Some x → P x.
Proof.
  intros Hv Hd Hw x ->. destruct input as [v|]; simpl in Hw.
  - unfold optional in Hw. destruct v; simpl in Hw;
      try (destruct (validate _) eqn:Hx; simpl in Hw; [|done];
           injection Hw as ->; by eapply Hv).
    done.
  - injection Hw as ->. by apply Hd.
Qed.

Section ModelFacts.
Context `{!Coercions}.

Lemma validated_quantity_in_bounds (input : option value) (q : Z) :
  with_default DeckCard.validate_quantity 1 input = Some q → 1 ≤ q ≤ 99.
Proof.
  destruct input as [v|]; simpl.
  - unfold DeckCard.validate_quantity. intros (n & _ & Hq)%bind_Some.
    by case_bool_decide; simplify_eq.
  - intros [= <-]. lia.
Qed.

Lemma validated_card_in_bounds (v : value) (c : DeckCard.t) :
  DeckCard.validate v = Some c → card_in_bounds c.
Proof.
  unfold DeckCard.validate. destruct v as [| | | | | |body| |]; try done.
  intros Hval.
  apply bind_Some in Hval as (sid & _ & Hval). apply bind_Some in Hval as (nm & _ & Hval).
  apply bind_Some in Hval as (q & Hq & Hval).
  repeat (apply bind_Some in Hval as (? & _ & Hval)). injection Hval as <-.
  unfold card_in_bounds. simpl. by eapply validated_quantity_in_bounds.
Qed.

(** X13. Every deck that passes validation is within the bounds the schema
    declares: a name of 1 to 120 characters, a format that is null or one of
    the ten listed, a description of at most 500 characters, and every card
    with a quantity from 1 to 99. *)
Theorem validated_deck_in_bounds (body : value) (deck : Deck.t) :
  Deck.validate body = Some deck → deck_in_bounds deck.
Proof.
  unfold Deck.validate. destruct body as [| | | | | |body| |]; try done.
  intros Hval.
  apply bind_Some in Hval as (name & Hname & Hval).
  apply bind_Some in Hval as (format & Hformat & Hval).
  apply bind_Some in Hval as (description & Hdescription & Hval).
  apply bind_Some in Hval as (cards & Hcards & Hval).
  repeat (apply bind_Some in Hval as (? & _ & Hval)). injection Hval as <-.
  unfold deck_in_bounds. simpl. split; [|split; [|split]].
  - unfold required in Hname. apply bind_Some in Hname as (v & _ & Hv).
    by apply validate_name_Some in Hv as [_ ?].
  - eapply optional_Some; [| |exact Hformat].
    + intros v s Hs. by apply validate_format_Some in Hs as [_ ?].
    + intros s [= <-]. unfold Deck.formats. set_solver.
  - eapply (optional_Some _ _ _ _ (λ s, (str_len s ≤ 500)%nat));
      [| |exact Hdescription].
    + intros v s (s' & _ & Hs)%bind_Some. unfold max_length, length_between in Hs.
      case_bool_decide; simplify_eq. lia.
    + done.
  - destruct (body !! "cards") as [v|]; simpl in Hcards.
    + unfold validate_list in Hcards. destruct v; try done.
      apply mapM_Some in Hcards. induction Hcards as [|v c l cs Hc _ IH]; constructor.
      * by eapply validated_card_in_bounds.
      * done.
    + injection Hcards as <-. constructor.
Qed.

Lemma validate_ignores_unknown_keys
    (body : gmap string value) (k : string) (v : value) :
  (k ∉ Deck_fields →
   Deck.validate (VDict (<[k := v]> body)) = Deck.validate (VDict body))
  ∧ (k ∉ update_fields →
     DeckUpdate.validate (VDict (<[k := v]> body)) = DeckUpdate.validate (VDict body))
  ∧ (k ∉ DeckCard_fields →
     DeckCard.validate (VDict (<[k := v]> body)) = DeckCard.validate (VDict body)).
Proof.
  split; [|split]; intros Hk.
  - unfold Deck.validate.
    rewrite !lookup_insert_ne; [done|intros ->; apply Hk; unfold Deck_fields; set_solver..].
  - unfold DeckUpdate.validate.
    rewrite !lookup_insert_ne; [done|intros ->; apply Hk; unfold update_fields; set_solver..].
  - unfold DeckCard.validate.
    rewrite !lookup_insert_ne;
      [done|intros ->; apply Hk; unfold DeckCard_fields; set_solver..].
Qed.

(** X14. A card entry is rejected when it is not an object, when it lacks
    [scryfall_id] or [name], and when its [quantity] converts to an integer
    outside 1..99; an entry accepted without a [quantity] has quantity 1. *)
Theorem card_entry_validation (entry : value) :
  (is_dict entry = false → DeckCard.validate entry = None)
  ∧ ∀ body, entry = VDict body →
      (body !! "scryfall_id" = None ∨ body !! "name" = None →
       DeckCard.validate entry = None)
      ∧ (∀ v n, body !! "quantity" = Some v → validate_int v = Some n →
                ¬ (1 ≤ n ≤ 99) → DeckCard.validate entry = None)
      ∧ (∀ c, body !! "quantity" = None → DeckCard.validate entry = Some c →
              DeckCard.quantity c = 1).
Proof.
  split; [by destruct entry|]. intros body ->. unfold DeckCard.validate.
  split; [|split].
  - intros [Hm|Hm]; rewrite Hm; simpl; [done|].
    by destruct (required validate_str (body !! "scryfall_id")).
  - intros v n Hq Hn Hout. rewrite Hq. simpl.
    unfold DeckCard.validate_quantity. rewrite Hn. simpl.
    rewrite bool_decide_eq_false_2 by done.
    destruct (required validate_str (body !! "scryfall_id")); simpl; [|done].
    by destruct (required validate_str (body !! "name")).
  - intros c Hq Hval. rewrite Hq in Hval. simpl in Hval.
    apply bind_Some in Hval as (sid & _ & Hval).
    apply bind_Some in Hval as (nm & _ & Hval).
    repeat (apply bind_Some in Hval as (? & _ & Hval)). by injection Hval as <-.
Qed.

Section DeckRejects.
Context `{!Database}.

(** X15. Keys of a request body that are not fields of the model change
    nothing: creating a deck and updating one have the same outcome and the
    same effect on the store with and without such a key. So a client cannot
    set [_id], [id] or [updated_at] through either request. *)
Theorem unknown_keys_change_nothing
    (db : option store) (now : Z) (deck_id : string)
    (body : gmap string value) (k : string) (v : value) :
  (k ∉ Deck_fields →
   post_decks db (VDict (<[k := v]> body)) = post_decks db (VDict body))
  ∧ (k ∉ update_fields →
     put_deck db now deck_id (VDict (<[k := v]> body))
     = put_deck db now deck_id (VDict body)).
Proof.
  destruct (validate_ignores_unknown_keys body k v) as (Hd & Hu & _).
  split; intros Hk.
  - unfold post_decks. by rewrite Hd.
  - unfold put_deck. by rewrite Hu.
Qed.

(** X16. A deck body whose [cards] is given and is not a list of valid card
    entries (null, not a list, or a list with one invalid entry) fails
    validation as a whole: creation answers 422 and the store is not
    touched, so no part of the deck is inserted. *)
Theorem deck_with_bad_cards_is_rejected
    (db : option store) (body : gmap string value) (v : value) :
  body !! "cards" = Some v →
  (∀ l, v = VList l → Exists (λ entry, DeckCard.validate entry = None) l) →
  Deck.validate (VDict body) = None
  ∧ post_decks db (VDict body) = (Raise RequestValidationError, db).
Proof.
  intros Hc Hbad.
  assert (Hv : Deck.validate (VDict body) = None).
  { unfold Deck.validate. rewrite Hc. simpl.
    assert (Hl : validate_list DeckCard.validate v = None).
    { destruct v; try done. simpl. apply mapM_None. by apply Hbad. }
    rewrite Hl.
    destruct (required _ (body !! "name")); simpl; [|done].
    destruct (with_default _ (Some "casual") (body !! "format")); simpl; [|done].
    by destruct (with_default _ None (body !! "description")). }
  split; [done|]. unfold post_decks. by rewrite Hv.
Qed.

End DeckRejects.

(** ** Dumping and validating again *)

Lemma lookup_set_unless_none_eq (k : string) (o : option value)
    (d : gmap string value) :
  d !! k = None → set_unless_none k o d !! k = o.
Proof.
  intros Hd. destruct o as [v|]; simpl; [by rewrite lookup_insert_eq|done].
Qed.

Lemma lookup_set_unless_none_ne (k k' : string) (o : option value)
    (d : gmap string value) :
  k ≠ k' → set_unless_none k o d !! k' = d !! k'.
Proof.
  intros Hk. destruct o as [v|]; simpl; [by rewrite lookup_insert_ne|done].
Qed.

Lemma optional_dump_roundtrip {A} (validate : value → option A)
    (inj : A → value) (o : option A) :
  (∀ x, validate (inj x) = Some x) →
  (∀ x, inj x ≠ VNone) →
  with_default (optional validate) None (inj <$> o) = Some o.
Proof.
  intros Hv Hn. destruct o as [x|]; simpl; [|done].
  unfold optional. specialize (Hn x). specialize (Hv x).
  destruct (inj x); try done; by rewrite Hv.
Qed.

Lemma optional_dump_roundtrip_if {A} (validate : value → option A)
    (inj : A → value) (o : option A) :
  (∀ x, o = Some x → validate (inj x) = Some x) →
  (∀ x, inj x ≠ VNone) →
  with_default (optional validate) None (inj <$> o) = Some o.
Proof.
  intros Hv Hn. destruct o as [x|]; simpl; [|done].
  unfold optional. specialize (Hn x). specialize (Hv x eq_refl).
  destruct (inj x); try done; by rewrite Hv.
Qed.

Lemma validate_strs_roundtrip (l : list string) :
  validate_list validate_str (VStrs l) = Some l.
Proof. simpl. apply mapM_fmap_Forall_Some. by apply Forall_true. Qed.

Section RoundTrip.
(** pydantic accepts the numbers it dumps. *)
Hypothesis validate_int_VInt : ∀ n, validate_int (VInt n) = Some n.
Hypothesis validate_float_VFloat : ∀ f, validate_float (VFloat f) = Some f.

Lemma card_dump_roundtrip (c : DeckCard.t) :
  card_in_bounds c →
  DeckCard.validate (VDict (DeckCard.model_dump_exclude_none c)) = Some c.
Proof using validate_int_VInt validate_float_VFloat.
  intros Hq. unfold DeckCard.validate, DeckCard.model_dump_exclude_none,
    DeckCard.model_dump_with.
  repeat
    (rewrite lookup_set_unless_none_eq
       by (repeat first
             [ rewrite lookup_set_unless_none_ne by done
             | rewrite lookup_insert_ne by done
             | rewrite lookup_singleton_ne by done ]; done);
     repeat first
       [ rewrite lookup_set_unless_none_ne by done
       | rewrite lookup_insert_eq
       | rewrite lookup_insert_ne by done
       | rewrite lookup_singleton_eq ]).
  rewrite !(optional_dump_roundtrip validate_str VStr) by done.
  rewrite !(optional_dump_roundtrip (validate_list validate_str) VStrs)
    by (done || apply validate_strs_roundtrip).
  rewrite (optional_dump_roundtrip validate_float VFloat) by done.
  simpl. unfold DeckCard.validate_quantity. rewrite validate_int_VInt. simpl.
  rewrite bool_decide_eq_true_2 by done. by destruct c.
Qed.

(** X17. What an update writes can be read back: validating the dump of an
    update payload as a request body gives the same payload again, when its
    cards are within the quantity bounds. *)
Theorem update_dump_validates_to_itself (payload : DeckUpdate.t) :
  (∀ cards, DeckUpdate.cards payload = Some cards → Forall card_in_bounds cards) →
  DeckUpdate.validate (VDict (DeckUpdate.model_dump_exclude_none payload))
  = Some payload.
Proof using validate_int_VInt validate_float_VFloat.
  intros Hcards. unfold DeckUpdate.validate.
  rewrite !update_dump_lookup. unfold supplied. simpl.
  rewrite !(optional_dump_roundtrip validate_str VStr) by done.
  rewrite (optional_dump_roundtrip_if (validate_list DeckCard.validate)
             (λ l, VList ((VDict ∘ DeckCard.model_dump_exclude_none) <$> l))).
  - by destruct payload.
  - intros l Hl. simpl. apply mapM_fmap_Forall_Some.
    eapply Forall_impl; [by apply Hcards|]. intros c Hc. simpl.
    by apply card_dump_roundtrip.
  - done.
Qed.

End RoundTrip.
End ModelFacts.

Section UpdateRouteFacts.
Context `{!Coercions}.

(** X18. An update stores any string given for [name], [format] or
    [description]: the length bounds and the enumeration of formats that
    creation enforces are not applied to an update ([DeckUpdate] declares
    plain optional strings). *)
Theorem update_skips_creation_bounds
    (st : store) (now : Z) (deck_id : string) (oid : ObjectId)
    (doc : gmap string value) (field s : string) :
  field ∈ ["name"; "format"; "description"] →
  ObjectId_new deck_id = Ok oid →
  List.find (has_id oid) (deck st) = Some doc →
  ∃ st' doc',
    (put_deck (Some st) now deck_id (VDict {[ field := VStr s ]})).2 = Some st'
    ∧ List.find (has_id oid) (deck st') = Some doc'
    ∧ doc' !! field = Some (VStr s).
Proof.
  intros Hfield Hoid Hfind.
  assert (Hp : ∃ payload,
             DeckUpdate.validate (VDict {[ field := VStr s ]}) = Some payload
             ∧ supplied payload field = Some (VStr s)).
  { repeat (apply elem_of_cons in Hfield as [->|Hfield];
            [eexists; split; [by vm_compute|done]|]).
    by apply elem_of_nil in Hfield. }
  destruct Hp as (payload & Hvalid & Hsup).
  assert (Hdump : DeckUpdate.model_dump_exclude_none payload ≠ ∅).
  { intros He. by rewrite <- update_dump_lookup, He, lookup_empty in Hsup. }
  destruct (update_deck_found_state st now deck_id oid doc payload Hoid Hfind Hdump)
    as (l1 & l2 & Hdocs & Hl1 & Hst).
  unfold put_deck. rewrite Hvalid, Hst.
  eexists _, (apply_set (write_set now payload) doc). split; [done|]. simpl. split.
  - rewrite (find_app_no_match _ _ _ Hl1). simpl.
    rewrite updated_document_keeps_id; [done|].
    by destruct (find_first_match _ _ _ Hfind).
  - rewrite write_set_lookup. unfold updated_document.
    rewrite decide_False, Hsup; [done|].
    intros ->. set_solver.
Qed.

End UpdateRouteFacts.

Section UnconfiguredFacts.
Context `{!Builtins, !Coercions, !Database}.

(** X19. With no store configured every deck endpoint fails with 500
    "Database not configured" before anything else it would do: before the
    identifier is parsed (a malformed one gets 500 all the same) and before
    the empty-update shortcut. Only the validation of the request body comes
    earlier: a body that fails it is answered 422. *)
Theorem unconfigured_store_fails_first
    (deck : Deck.t) (deck_id : string) (now : Z) (payload : DeckUpdate.t)
    (body : value) :
  create_deck None deck = (not_configured, None)
  ∧ get_deck None deck_id = (not_configured, None)
  ∧ update_deck None now deck_id payload = (not_configured, None)
  ∧ delete_deck None deck_id = (not_configured, None)
  ∧ post_decks None body
    = (match Deck.validate body with
       | Some _ => not_configured
       | None => Raise RequestValidationError
       end, None)
  ∧ put_deck None now deck_id body
    = (match DeckUpdate.validate body with
       | Some _ => not_configured
       | None => Raise RequestValidationError
       end, None)
  ∧ http_status (A := gmap string value) not_configured = 500.
Proof.
  repeat split.
  - unfold post_decks. by destruct (Deck.validate body).
  - unfold put_deck. by destruct (DeckUpdate.validate body).
Qed.

End UnconfiguredFacts.

(* ================================================================= *)
(** * Document Serializer: further properties *)

Lemma external_form_no_ObjectId (v : value) :
  is_ObjectId (external_form v) = false
  ∧ ∀ l, external_form v = VList l → Forall (λ x, is_ObjectId x = false) l.
Proof.
  split; [by destruct v|].
  destruct v as [| | | | |l0| | |]; try done. simpl. intros l [= <-].
  apply Forall_fmap, Forall_true. by intros [].
Qed.

Section SerializerMoreFacts.
Context `{!Builtins}.

(** X20. What [serialize_doc] returns holds no raw identifier where the
    program looks for one: no field is an [ObjectId], and no element of a
    list-valued field is. *)
Theorem serialized_doc_has_no_raw_identifier (doc doc' : gmap string value) :
  serialize_doc (Some doc) = Some doc' →
  ∀ k v, doc' !! k = Some v →
    is_ObjectId v = false
    ∧ ∀ l, v = VList l → Forall (λ x, is_ObjectId x = false) l.
Proof.
  destruct (decide (doc = ∅)) as [->|Hne].
  { assert (He : serialize_doc (Some (∅ : gmap string value)) = Some ∅) by done.
    rewrite He. intros [= <-] k v. by rewrite lookup_empty. }
  rewrite (serialize_doc_nonempty doc Hne). intros [= <-] k v.
  rewrite lookup_fmap. intros (w & _ & ->)%fmap_Some.
  apply external_form_no_ObjectId.
Qed.

(** X21. [serialize_doc] keeps the field names: the result has the fields
    of the document, except that [_id], when it holds a value that counts as
    true, is replaced by [id]; no other field is added or dropped. *)
Theorem serialized_doc_fields (doc doc' : gmap string value) :
  serialize_doc (Some doc) = Some doc' →
  dom doc' = if truthy (dict_get doc "_id")
             then {["id"]} ∪ (dom doc ∖ {["_id"]})
             else dom doc.
Proof.
  destruct (decide (doc = ∅)) as [->|Hne].
  { assert (He : serialize_doc (Some (∅ : gmap string value)) = Some ∅) by done.
    rewrite He. by intros [= <-]. }
  rewrite (serialize_doc_nonempty doc Hne). intros [= <-].
  rewrite dom_fmap_L. destruct (truthy (dict_get doc "_id")); [|done].
  by rewrite dom_insert_L, dom_delete_L.
Qed.

End SerializerMoreFacts.

(* ================================================================= *)
(** * Card Data Mapper: further properties *)

(** X22. Whatever the record, a mapped card has exactly the twelve keys of
    the UI subset; the legacy [image_small] always equals
    [image_front_small]; and [scryfall_id], [name] and [colors] are the
    top-level [id], [name] and [colors] (null when absent), never taken from
    a face. *)
Theorem mapped_card_shape (card m : gmap string value) :
  map_scryfall_card card = Ok m →
  dom m = mapped_card_keys
  ∧ m !! "image_small" = m !! "image_front_small"
  ∧ m !! "scryfall_id" = Some (dict_get card "id")
  ∧ m !! "name" = Some (dict_get card "name")
  ∧ m !! "colors" = Some (dict_get card "colors").
Proof.
  intros Hm. rewrite (map_scryfall_card_Ok _ _ Hm). unfold mapped_card_spec.
  split; [|by simplify_map_eq].
  rewrite !dom_insert_L, dom_singleton_L. unfold mapped_card_keys.
  cbn [list_to_set foldr]. by rewrite (right_id_L ∅ (∪)).
Qed.

(** X23. A record without faces ([card_faces] absent, null or empty): the
    mapper returns exactly when [image_uris] is absent, empty or an object;
    the back images are null and [has_back] is false; the three text fields
    are the top-level values as they are, empty ones included; and the front
    images are those of [image_uris]. *)
Theorem card_without_faces (card : gmap string value) :
  truthy (dict_get card "card_faces") = false →
  is_Ok (map_scryfall_card card) = optional_mapping (dict_get card "image_uris")
  ∧ ∀ m, map_scryfall_card card = Ok m →
      m !! "image_back_small" = Some VNone
      ∧ m !! "image_back_normal" = Some VNone
      ∧ m !! "has_back" = Some (VBool false)
      ∧ m !! "image_front_small" = Some (images_of (dict_get card "image_uris")).1
      ∧ m !! "image_front_normal" = Some (images_of (dict_get card "image_uris")).2
      ∧ ∀ field, field ∈ ["mana_cost"; "type_line"; "oracle_text"] →
                 m !! field = Some (dict_get card field).
Proof.
  intros Hf.
  assert (Hfaces : faces_of card = []).
  { unfold faces_of. destruct (dict_get card "card_faces") as [| | | | |l| | |];
      try done. by destruct l. }
  split.
  - destruct (optional_mapping (dict_get card "image_uris")) eqn:Hu.
    + rewrite map_scryfall_card_total; [done|].
      unfold card_record_ok. by rewrite Hu, Hf.
    + unfold optional_mapping in Hu. apply orb_false_iff in Hu as [Ht Hd].
      apply negb_false_iff in Ht.
      unfold map_scryfall_card. rewrite Ht, (dict_getitem_truthy _ _ Ht).
      by destruct (dict_get card "image_uris").
  - intros m Hm. rewrite (map_scryfall_card_Ok _ _ Hm).
    assert (Hback : back_images_spec card = (VNone, VNone)).
    { unfold back_images_spec. by rewrite Hfaces. }
    assert (Hfront : front_images_spec card
                     = images_of (dict_get card "image_uris")).
    { unfold front_images_spec. rewrite Hfaces.
      destruct (truthy (dict_get card "image_uris")) eqn:Ht; [done|].
      destruct (dict_get card "image_uris") as [| | | | | |d| |]; try done.
      apply negb_false_iff, bool_decide_eq_true in Ht. by subst d. }
    unfold mapped_card_spec. rewrite Hback, Hfront. simpl.
    repeat (split; [by simplify_map_eq|]).
    intros field Hfield.
    assert (Ht : text_field_spec card field = dict_get card field).
    { unfold text_field_spec. rewrite Hfaces. cbv zeta.
      by destruct (truthy (dict_get card field)). }
    repeat (apply elem_of_cons in Hfield as [->|Hfield];
            [rewrite <- Ht; by simplify_map_eq|]).
    by apply elem_of_nil in Hfield.
Qed.

(** X24. The fallback of a text field: when the top-level value is absent,
    null or empty and face 0 is an object, the mapped field is face 0's
    value, null when the face has none; so an empty top-level string can
    become null. *)
Theorem text_field_falls_back_to_face0
    (card m face0 : gmap string value) (faces : list value) (field : string) :
  field ∈ ["mana_cost"; "type_line"; "oracle_text"] →
  truthy (dict_get card field) = false →
  dict_get card "card_faces" = VList (VDict face0 :: faces) →
  map_scryfall_card card = Ok m →
  m !! field = Some (dict_get face0 field).
Proof.
  intros Hfield Ht Hfaces Hm. rewrite (map_scryfall_card_Ok _ _ Hm).
  rewrite (mapped_card_spec_text _ _ Hfield). f_equal.
  unfold text_field_spec, faces_of. by rewrite Ht, Hfaces.
Qed.

(** X25. [has_back] is true only for a record with at least two faces. *)
Theorem has_back_needs_two_faces (card m : gmap string value) :
  map_scryfall_card card = Ok m →
  m !! "has_back" = Some (VBool true) →
  (2 ≤ length (faces_of card))%nat.
Proof.
  intros Hm. rewrite (map_scryfall_card_Ok _ _ Hm). unfold mapped_card_spec.
  simplify_map_eq. unfold back_images_spec.
  destruct (faces_of card) as [|f0 [|f1 l]]; simpl; [done|done|lia].
Qed.

(** X26. A [card_faces] that counts as true and has no length (a number,
    [true]) makes the mapper fail, whatever else the record holds. *)
Theorem unsized_card_faces_fail (card : gmap string value) :
  truthy (dict_get card "card_faces") = true →
  is_sized (dict_get card "card_faces") = false →
  is_Ok (map_scryfall_card card) = false.
Proof.
  intros Ht Hs. destruct (map_scryfall_card card) as [m|e] eqn:Hm; [|done].
  exfalso. unfold map_scryfall_card in Hm.
  apply bind_Ok in Hm as ([fs fn] & _ & Hm).
  apply bind_Ok in Hm as (back & Hback & _).
  apply bind_Ok in Hback as (c & Hc & _).
  unfold more_faces_than in Hc. rewrite Ht, (dict_getitem_truthy _ _ Ht) in Hc.
  by destruct (dict_get card "card_faces").
Qed.

(* ================================================================= *)
(** * Worked examples *)

Example serialize_burn_doc :
  @serialize_doc sample_builtins (Some burn_doc)
  = Some {[ "id" := VStr "65f0c0ffee0123456789abcd";
            "name" := VStr "Burn";
            "format" := VStr "casual";
            "cards" := VList [];
            "updated_at" := VDatetime 1000 ]}.
Proof. reflexivity. Qed.

Example serialize_nested_ids :
  @serialize_doc sample_builtins
    (Some {[ "refs" := VList [ VObjectId burn_id; VInt 7 ] ]})
  = Some {[ "refs" := VList [ VStr "65f0c0ffee0123456789abcd"; VInt 7 ] ]}.
Proof. reflexivity. Qed.

Example map_single_faced :
  map_scryfall_card card_single_faced
  = Ok {[ "scryfall_id" := VStr "b01t";
          "name" := VStr "Lightning Bolt";
          "mana_cost" := VStr "{R}";
          "type_line" := VNone;
          "oracle_text" := VNone;
          "colors" := VNone;
          "image_small" := VStr "s";
          "image_front_small" := VStr "s";
          "image_front_normal" := VStr "n";
          "image_back_small" := VNone;
          "image_back_normal" := VNone;
          "has_back" := VBool false ]}.
Proof. reflexivity. Qed.

Example map_two_faced_images :
  (m ← map_scryfall_card card_two_faced;
   Ok (m !! "image_front_small", m !! "image_back_small", m !! "has_back",
       m !! "mana_cost", m !! "oracle_text"))
  = Ok (Some (VStr "f0s"), Some (VStr "f1s"), Some (VBool true),
        Some (VStr "{1}{R}"), Some VNone).
Proof. reflexivity. Qed.

Example map_malformed_face :
  map_scryfall_card card_with_malformed_face = Raise AttributeError.
Proof. reflexivity. Qed.

Example search_upstream_error :
  search_cards (requests_get_answering answer_not_found) "zzz" 1
  = Raise (HTTPException 404 (VStr "No cards found")).
Proof. reflexivity. Qed.

Example search_one_card :
  (r ← search_cards (requests_get_answering answer_one_card) "bolt" 1;
   Ok (r !! "object", r !! "total_cards", r !! "has_more", r !! "next_page"))
  = Ok (Some (VStr "list"), Some (VInt 1), Some (VBool false), Some VNone).
Proof. reflexivity. Qed.

(** [POST /api/decks] with [{"name": "Burn", "cards": []}], then
    [GET /api/decks/<id>] *)
Example create_then_get :
  let '(created, db) :=
    @post_decks json_numbers sample_database (Some empty_store) (VDict body_burn) in
  created = Ok {[ "id" := VStr "000000000000000000000000" ]}
  ∧ (d ← (@get_deck sample_builtins db "000000000000000000000000").1;
     Ok (d ≫= (λ d, Some (d !! "id", d !! "name", d !! "format", d !! "cards"))))
    = Ok (Some (Some (VStr "000000000000000000000000"), Some (VStr "Burn"),
                Some (VStr "casual"), Some (VList []))).
Proof. vm_compute. split; reflexivity. Qed.

Example update_name :
  update_deck (Some burn_store) 2000 "65f0c0ffee0123456789abcd" rename_to_bolt
  = (Ok {[ "updated" := VBool true ]},
     Some {| deck := [ <["name" := VStr "Bolt"]>
                         (<["updated_at" := VDatetime 2000]> burn_doc) ];
             calls := [ UpdateOne burn_id (write_set 2000 rename_to_bolt) ] |}).
Proof. reflexivity. Qed.

Example update_same_name_same_time :
  (update_deck (Some burn_store) 1000 "65f0c0ffee0123456789abcd" rename_to_burn).1
  = Ok {[ "updated" := VBool false ]}.
Proof. reflexivity. Qed.

Example update_missing_deck :
  (update_deck (Some burn_store) 2000 "000000000000000000000000" rename_to_bolt).1
  = deck_not_found.
Proof. reflexivity. Qed.

Example update_unconfigured :
  update_deck None 2000 "65f0c0ffee0123456789abcd" no_fields
  = (not_configured, None).
Proof. reflexivity. Qed.

Example delete_missing_deck :
  (delete_deck (Some burn_store) "000000000000000000000000").1
  = Ok {[ "deleted" := VBool false ]}.
Proof. reflexivity. Qed.

(** Identifiers: upper-case digits name the same identifier; white space
    is skipped between pairs of digits, so a string of 24 characters can
    give an identifier of fewer than twelve bytes; white space inside a
    pair, another character or another length is refused. *)
Example objectid_upper_case :
  ObjectId_new "65F0C0FFEE0123456789ABCD" = Ok burn_id.
Proof. reflexivity. Qed.

Example objectid_with_white_space :
  ObjectId_new "0123456789abcdef012345  " = Ok (Oid "0123456789abcdef012345").
Proof. reflexivity. Qed.

Example objectid_white_space_inside_a_pair :
  ObjectId_new "0 123456789abcdef0123456" = Raise InvalidId.
Proof. reflexivity. Qed.

Example objectid_not_hexadecimal :
  ObjectId_new "0123456789abcdef0123456g" = Raise InvalidId.
Proof. reflexivity. Qed.

(** Lengths count characters, not bytes: a name of 41 letters of three bytes
    each is within the bound of 120, and one of 123 such letters is not. *)
Example wide_name_length :
  String.length name_of_41_letters = 123%nat ∧ str_len name_of_41_letters = 41%nat.
Proof. split; reflexivity. Qed.

Example wide_name_is_accepted :
  Deck.name <$> @Deck.validate json_numbers
                  (VDict {[ "name" := VStr name_of_41_letters ]})
  = Some name_of_41_letters.
Proof. reflexivity. Qed.

Example long_wide_name_is_rejected :
  @Deck.validate json_numbers
    (VDict {[ "name" := VStr (name_of_41_letters +:+ name_of_41_letters
                              +:+ name_of_41_letters) ]})
  = None.
Proof. reflexivity. Qed.


(* ================================================================= *)
(** * The theorems at sample inputs *)

Lemma nonempty_text_field_verbatim_at_two_faced :
  ∃ m, map_scryfall_card card_two_faced = Ok m
       ∧ m !! "mana_cost" = Some (VStr "{1}{R}").
Proof.
  destruct (nonempty_text_field_verbatim card_two_faced "mana_cost" (VStr "{1}{R}"))
    as [_ Hm].
  - set_solver.
  - by vm_compute.
  - reflexivity.
  - exists (mapped_card_spec card_two_faced).
    assert (Hmap : map_scryfall_card card_two_faced
                   = Ok (mapped_card_spec card_two_faced))
      by (apply map_scryfall_card_total; by vm_compute).
    split; [exact Hmap|exact (Hm _ Hmap)].
Defined.

Lemma mapped_card_images_at_two_faced :
  ∃ m, map_scryfall_card card_two_faced = Ok m
       ∧ m !! "image_front_small" = Some (VStr "f0s")
       ∧ m !! "image_back_normal" = Some (VStr "f1n")
       ∧ m !! "has_back" = Some (VBool true).
Proof.
  destruct (mapped_card_images card_two_faced) as [_ Hm].
  assert (Hmap : map_scryfall_card card_two_faced
                 = Ok (mapped_card_spec card_two_faced))
    by (apply map_scryfall_card_total; by vm_compute).
  destruct (Hm _ Hmap) as (Hfs & _ & _ & Hbn & _ & Hhas).
  exists (mapped_card_spec card_two_faced).
  split; [exact Hmap|]. split; [exact Hfs|]. split; [exact Hbn|].
  apply Hhas. left. by vm_compute.
Defined.

Lemma updated_iff_write_set_changes_document_at_burn :
  ∃ b : bool,
    (update_deck (Some burn_store) 2000 "65f0c0ffee0123456789abcd" rename_to_bolt).1
      = Ok {[ "updated" := VBool b ]}
    ∧ (b = true ↔ ∃ k v, write_set 2000 rename_to_bolt !! k = Some v
                         ∧ burn_doc !! k ≠ Some v)
    ∧ (burn_doc !! "updated_at" ≠ Some (VDatetime 2000) → b = true).
Proof.
  apply (updated_iff_write_set_changes_document burn_store 2000
           "65f0c0ffee0123456789abcd" burn_id burn_doc rename_to_bolt).
  - by vm_compute.
  - by vm_compute.
  - by apply insert_non_empty.
Defined.

Lemma invalid_id_is_not_a_404_at_empty_store :
  @get_deck sample_builtins (Some empty_store) "not-an-id"
    = (Raise InvalidId, Some empty_store)
  ∧ http_status (@get_deck sample_builtins (Some empty_store) "not-an-id").1 = 500
  ∧ ∀ good oid,
      ObjectId_new good = Ok oid →
      List.find (has_id oid) (deck empty_store) = None →
      @get_deck sample_builtins (Some empty_store) good
        = (deck_not_found, Some (called (FindOne oid) empty_store))
      ∧ http_status (@get_deck sample_builtins (Some empty_store) good).1 = 404.
Proof.
  apply (@invalid_id_is_not_a_404 sample_builtins empty_store "not-an-id").
  by vm_compute.
Defined.

Lemma search_cards_timeout_at_bolt :
  search_cards requests_get_timing_out "bolt" 1
    = Raise (HTTPException 504 (VStr "Scryfall request timed out"))
  ∧ http_status (search_cards requests_get_timing_out "bolt" 1) = 504.
Proof.
  apply (search_cards_timeout requests_get_timing_out "bolt" 1).
  reflexivity.
Defined.

Lemma create_deck_validation_at_burn :
  ∃ deck,
    @Deck.validate json_numbers (VDict body_burn) = Some deck
    ∧ Deck.format deck = Some "casual"
    ∧ @post_decks json_numbers sample_database (Some empty_store) (VDict body_burn)
      = (Ok {[ "id" := VStr (create_document_model "deck" deck empty_store).1 ]},
         Some (create_document_model "deck" deck empty_store).2).
Proof.
  destruct (@create_deck_validation json_numbers sample_database
              (Some empty_store) body_burn) as [_ Hok].
  destruct Hok as [Homitted _].
  - exists "modern". split; [set_solver|]. eexists. vm_compute. reflexivity.
  - apply (Homitted eq_refl empty_store).
Defined.

(** C6 as worded fails: a null [format] is none of the enumerated formats,
    and the body is accepted. *)
Lemma null_format_is_accepted : ¬ format_outside_enumeration_rejected.
Proof.
  intros H.
  specialize (H json_numbers sample_database (Some empty_store)
                body_null_format VNone).
  assert (Hpost : is_Ok (@post_decks json_numbers sample_database
                           (Some empty_store) (VDict body_null_format)).1 = true)
    by by vm_compute.
  rewrite H in Hpost; [discriminate Hpost|by vm_compute|done].
Qed.

Lemma update_without_fields_is_a_noop_at_burn :
  @put_deck json_numbers (Some burn_store) 2000 "not-an-id"
    (VDict body_no_update_fields)
    = (Ok {[ "updated" := VBool false ]}, Some burn_store)
  ∧ update_deck (Some burn_store) 2000 "not-an-id" no_fields
    = (Ok {[ "updated" := VBool false ]}, Some burn_store).
Proof.
  apply (@update_without_fields_is_a_noop json_numbers burn_store 2000
           "not-an-id" body_no_update_fields).
  intros k Hk. unfold update_fields in Hk.
  repeat (apply elem_of_cons in Hk as [->|Hk]; [reflexivity|]).
  by apply elem_of_nil in Hk.
Defined.

Lemma serialize_doc_external_at_burn :
  ∃ doc', @serialize_doc sample_builtins (Some burn_doc) = Some doc'
          ∧ doc' !! "id" = Some (VStr "65f0c0ffee0123456789abcd")
          ∧ doc' !! "_id" = None
          ∧ doc' !! "name" = Some (VStr "Burn").
Proof.
  destruct (@serialize_doc_external sample_builtins burn_doc)
    as (_ & _ & doc' & Hdoc & Hid & _ & _ & _ & Hother).
  exists doc'. split; [exact Hdoc|].
  destruct (Hid burn_id) as [Hid1 Hid2]; [by vm_compute|].
  split; [exact Hid1|]. split; [exact Hid2|].
  by apply Hother.
Defined.

Lemma serialize_doc_twice_at_burn :
  @serialize_doc sample_builtins (@serialize_doc sample_builtins (Some serialized_burn))
    = @serialize_doc sample_builtins (Some serialized_burn).
Proof.
  apply (@serialize_doc_twice sample_builtins serialized_burn).
  by vm_compute.
Defined.

Lemma null_update_field_is_omitted_at_burn :
  @put_deck json_numbers (Some burn_store) 2000 "65f0c0ffee0123456789abcd"
    (VDict body_null_fields)
    = (Ok {[ "updated" := VBool false ]}, Some burn_store).
Proof.
  destruct (@null_update_field_is_omitted json_numbers (Some burn_store) 2000
              "65f0c0ffee0123456789abcd" body_null_fields) as (_ & _ & Hnoop).
  apply Hnoop; [|reflexivity].
  intros k Hk. unfold update_fields in Hk.
  repeat (apply elem_of_cons in Hk as [->|Hk];
          [first [by left; vm_compute | by right; vm_compute]|]).
  by apply elem_of_nil in Hk.
Defined.
(* ================================================================= *)
(** * The further theorems at sample inputs *)

Lemma search_cards_passes_status_on_at_not_found :
  search_cards (requests_get_answering answer_not_found) "bolt" 1
    = Raise (HTTPException 404 (upstream_detail answer_not_found))
  ∧ http_status (search_cards (requests_get_answering answer_not_found) "bolt" 1)
    = 404.
Proof.
  apply (search_cards_passes_status_on (requests_get_answering answer_not_found)
           "bolt" 1 answer_not_found).
  - reflexivity.
  - discriminate.
Defined.

Lemma search_cards_maps_every_record_at_one_card :
  search_cards (requests_get_answering answer_one_card) "bolt" 1
    = Ok (search_envelope
            {[ "total_cards" := VInt 1;
               "data" := VList [ VDict card_single_faced ] ]}
            ((VDict ∘ mapped_card_spec) <$> [card_single_faced])).
Proof.
  apply (search_cards_maps_every_record (requests_get_answering answer_one_card)
           "bolt" 1 answer_one_card).
  - reflexivity.
  - reflexivity.
  - reflexivity.
  - reflexivity.
  - repeat constructor.
Defined.

Lemma search_cards_all_or_nothing_at_one_card :
  ∃ resp data items mapped,
    requests_get_answering answer_one_card (SCRYFALL_API +:+ "/cards/search")
      {[ "q" := VStr "bolt"; "page" := VInt 1 ]} 10 = Ok resp
    ∧ status_code resp = 200
    ∧ json resp = Ok (VDict data)
    ∧ py_iter (default (VList []) (data !! "data")) = Ok items
    ∧ Forall2 (λ item m, map_scryfall_card_item item = Ok m) items mapped
    ∧ search_envelope
        {[ "total_cards" := VInt 1;
           "data" := VList [ VDict card_single_faced ] ]}
        ((VDict ∘ mapped_card_spec) <$> [card_single_faced])
      = search_envelope data mapped.
Proof.
  apply (search_cards_all_or_nothing (requests_get_answering answer_one_card)
           "bolt" 1).
  reflexivity.
Defined.

Lemma get_card_outcomes_at_single_card :
  get_card (requests_get_answering answer_single_card) "b01t"
    = Ok (mapped_card_spec card_single_faced).
Proof.
  destruct (get_card_outcomes (requests_get_answering answer_single_card)
              "b01t" answer_single_card eq_refl) as [_ H200].
  destruct (H200 eq_refl) as [Hcard _].
  apply Hcard; [reflexivity|reflexivity].
Defined.

Lemma delete_deck_removes_first_match_at_two_decks :
  ∃ (b : bool) (docs : list (gmap string value)),
    delete_deck (Some two_deck_store) "65f0c0ffee0123456789abcd"
      = (Ok {[ "deleted" := VBool b ]},
         Some {| deck := docs;
                 calls := calls two_deck_store ++ [DeleteOne burn_id] |})
    ∧ (List.find (has_id burn_id) (deck two_deck_store) = None →
       b = false ∧ docs = deck two_deck_store)
    ∧ (∀ doc, List.find (has_id burn_id) (deck two_deck_store) = Some doc →
         b = true
         ∧ ∃ l1 l2, deck two_deck_store = l1 ++ doc :: l2
                    ∧ Forall (λ d, has_id burn_id d = false) l1
                    ∧ docs = l1 ++ l2).
Proof.
  apply (delete_deck_removes_first_match two_deck_store
           "65f0c0ffee0123456789abcd" burn_id).
  reflexivity.
Defined.

Lemma get_deck_found_at_two_decks :
  ∃ d : gmap string value,
    @get_deck sample_builtins (Some two_deck_store) "65f0c0ffee0123456789abcd"
      = (Ok (Some d), Some (called (FindOne burn_id) two_deck_store))
    ∧ d !! "id" = Some (VStr "65f0c0ffee0123456789abcd")
    ∧ d !! "_id" = None
    ∧ ∀ k, k ≠ "_id" → k ≠ "id" → d !! k = external_form <$> burn_doc !! k.
Proof.
  apply (@get_deck_found sample_builtins two_deck_store
           "65f0c0ffee0123456789abcd" burn_id burn_doc).
  - reflexivity.
  - reflexivity.
Defined.

Lemma delete_then_get_is_not_found_at_two_decks :
  (@get_deck sample_builtins
     (delete_deck (Some two_deck_store) "65f0c0ffee0123456789abcd").2
     "65f0c0ffee0123456789abcd").1 = deck_not_found
  ∧ (delete_deck (delete_deck (Some two_deck_store) "65f0c0ffee0123456789abcd").2
       "65f0c0ffee0123456789abcd").1
    = Ok {[ "deleted" := VBool false ]}.
Proof.
  apply (@delete_then_get_is_not_found sample_builtins two_deck_store
           "65f0c0ffee0123456789abcd" burn_id).
  - reflexivity.
  - vm_compute. apply le_n.
Defined.

Lemma update_deck_changes_only_supplied_fields_at_two_decks :
  ∃ l1 l2 doc',
    deck two_deck_store = l1 ++ burn_doc :: l2
    ∧ Forall (λ d, has_id burn_id d = false) l1
    ∧ (update_deck (Some two_deck_store) 2000 "65f0c0ffee0123456789abcd"
         rename_to_bolt).2
      = Some {| deck := l1 ++ doc' :: l2;
                calls := calls two_deck_store
                         ++ [UpdateOne burn_id (write_set 2000 rename_to_bolt)] |}
    ∧ (∀ k, doc' !! k = updated_document 2000 rename_to_bolt burn_doc k)
    ∧ doc' !! "_id" = Some (VObjectId burn_id).
Proof.
  apply (update_deck_changes_only_supplied_fields two_deck_store 2000
           "65f0c0ffee0123456789abcd" burn_id burn_doc rename_to_bolt).
  - reflexivity.
  - reflexivity.
  - by apply insert_non_empty.
Defined.

Lemma update_deck_missing_is_not_found_at_empty_store :
  update_deck (Some empty_store) 2000 "65f0c0ffee0123456789abcd" rename_to_bolt
    = (deck_not_found,
       Some {| deck := deck empty_store;
               calls := calls empty_store
                        ++ [UpdateOne burn_id (write_set 2000 rename_to_bolt)] |})
  ∧ http_status
      (update_deck (Some empty_store) 2000 "65f0c0ffee0123456789abcd"
         rename_to_bolt).1 = 404.
Proof.
  apply (update_deck_missing_is_not_found empty_store 2000
           "65f0c0ffee0123456789abcd" burn_id rename_to_bolt).
  - reflexivity.
  - reflexivity.
  - by apply insert_non_empty.
Defined.

Lemma update_then_get_returns_new_values_at_two_decks :
  ∃ d : gmap string value,
    (@get_deck sample_builtins
       (update_deck (Some two_deck_store) 2000 "65f0c0ffee0123456789abcd"
          rename_to_bolt).2
       "65f0c0ffee0123456789abcd").1 = Ok (Some d)
    ∧ d !! "id" = Some (VStr "65f0c0ffee0123456789abcd")
    ∧ d !! "updated_at" = Some (VDatetime 2000)
    ∧ (∀ s, DeckUpdate.name rename_to_bolt = Some s → d !! "name" = Some (VStr s))
    ∧ ∀ k, k ≠ "_id" → k ≠ "id" →
           d !! k = external_form <$> updated_document 2000 rename_to_bolt burn_doc k.
Proof.
  apply (@update_then_get_returns_new_values sample_builtins two_deck_store 2000
           "65f0c0ffee0123456789abcd" burn_id burn_doc rename_to_bolt).
  - reflexivity.
  - reflexivity.
  - by apply insert_non_empty.
Defined.

Lemma malformed_id_escapes_delete_and_update_at_burn :
  delete_deck (Some burn_store) "not-an-id" = (Raise InvalidId, Some burn_store)
  ∧ (DeckUpdate.model_dump_exclude_none rename_to_bolt ≠ ∅ →
     update_deck (Some burn_store) 2000 "not-an-id" rename_to_bolt
       = (Raise InvalidId, Some burn_store))
  ∧ http_status (delete_deck (Some burn_store) "not-an-id").1 = 500.
Proof.
  apply (malformed_id_escapes_delete_and_update burn_store 2000 "not-an-id"
           rename_to_bolt).
  reflexivity.
Defined.

Lemma validated_deck_in_bounds_at_burn :
  ∃ deck, @Deck.validate json_numbers (VDict body_burn) = Some deck
          ∧ deck_in_bounds deck.
Proof.
  eexists. split.
  - reflexivity.
  - apply (@validated_deck_in_bounds json_numbers (VDict body_burn)).
    reflexivity.
Defined.

Lemma deck_with_bad_cards_is_rejected_at_bad_card :
  @Deck.validate json_numbers (VDict body_with_bad_card) = None
  ∧ @post_decks json_numbers sample_database (Some empty_store)
      (VDict body_with_bad_card)
    = (Raise RequestValidationError, Some empty_store).
Proof.
  apply (@deck_with_bad_cards_is_rejected json_numbers sample_database
           (Some empty_store) body_with_bad_card (VList [VInt 5])).
  - reflexivity.
  - intros l [= <-]. apply Exists_cons_hd. reflexivity.
Defined.

Lemma update_dump_validates_to_itself_at_set_cards :
  @DeckUpdate.validate json_numbers
    (VDict (DeckUpdate.model_dump_exclude_none set_cards)) = Some set_cards.
Proof.
  apply (@update_dump_validates_to_itself json_numbers).
  - intros n. reflexivity.
  - intros f. reflexivity.
  - intros cards [= <-]. repeat constructor; vm_compute; discriminate.
Defined.

Lemma update_skips_creation_bounds_at_burn :
  ∃ st' doc',
    (@put_deck json_numbers (Some burn_store) 2000 "65f0c0ffee0123456789abcd"
       (VDict {[ "format" := VStr "no such format" ]})).2 = Some st'
    ∧ List.find (has_id burn_id) (deck st') = Some doc'
    ∧ doc' !! "format" = Some (VStr "no such format").
Proof.
  apply (@update_skips_creation_bounds json_numbers burn_store 2000
           "65f0c0ffee0123456789abcd" burn_id burn_doc "format" "no such format").
  - set_solver.
  - reflexivity.
  - reflexivity.
Defined.

Lemma serialized_doc_has_no_raw_identifier_at_burn :
  ∃ doc',
    @serialize_doc sample_builtins (Some burn_doc) = Some doc'
    ∧ ∀ k v, doc' !! k = Some v →
        is_ObjectId v = false
        ∧ ∀ l, v = VList l → Forall (λ x, is_ObjectId x = false) l.
Proof.
  eexists. split.
  - reflexivity.
  - apply (@serialized_doc_has_no_raw_identifier sample_builtins burn_doc).
    reflexivity.
Defined.

Lemma serialized_doc_fields_at_burn :
  ∃ doc',
    @serialize_doc sample_builtins (Some burn_doc) = Some doc'
    ∧ dom doc' = if truthy (dict_get burn_doc "_id")
                 then {["id"]} ∪ (dom burn_doc ∖ {["_id"]})
                 else dom burn_doc.
Proof.
  eexists. split.
  - reflexivity.
  - apply (@serialized_doc_fields sample_builtins burn_doc).
    reflexivity.
Defined.

Lemma mapped_card_shape_at_two_faced :
  dom (mapped_card_spec card_two_faced) = mapped_card_keys
  ∧ mapped_card_spec card_two_faced !! "image_small"
    = mapped_card_spec card_two_faced !! "image_front_small"
  ∧ mapped_card_spec card_two_faced !! "scryfall_id"
    = Some (dict_get card_two_faced "id")
  ∧ mapped_card_spec card_two_faced !! "name"
    = Some (dict_get card_two_faced "name")
  ∧ mapped_card_spec card_two_faced !! "colors"
    = Some (dict_get card_two_faced "colors").
Proof.
  apply (mapped_card_shape card_two_faced).
  apply map_scryfall_card_total. reflexivity.
Defined.

Lemma card_without_faces_at_single_faced :
  is_Ok (map_scryfall_card card_single_faced)
    = optional_mapping (dict_get card_single_faced "image_uris")
  ∧ ∀ m, map_scryfall_card card_single_faced = Ok m →
      m !! "image_back_small" = Some VNone
      ∧ m !! "image_back_normal" = Some VNone
      ∧ m !! "has_back" = Some (VBool false)
      ∧ m !! "image_front_small"
        = Some (images_of (dict_get card_single_faced "image_uris")).1
      ∧ m !! "image_front_normal"
        = Some (images_of (dict_get card_single_faced "image_uris")).2
      ∧ ∀ field, field ∈ ["mana_cost"; "type_line"; "oracle_text"] →
                 m !! field = Some (dict_get card_single_faced field).
Proof.
  apply (card_without_faces card_single_faced).
  reflexivity.
Defined.

Lemma text_field_falls_back_to_face0_at_empty_mana_cost :
  mapped_card_spec card_with_empty_mana_cost !! "mana_cost"
    = Some (dict_get {[ "mana_cost" := VStr "{R}" ]} "mana_cost").
Proof.
  apply (text_field_falls_back_to_face0 card_with_empty_mana_cost
           (mapped_card_spec card_with_empty_mana_cost)
           {[ "mana_cost" := VStr "{R}" ]} [] "mana_cost").
  - set_solver.
  - reflexivity.
  - reflexivity.
  - apply map_scryfall_card_total. reflexivity.
Defined.

Lemma has_back_needs_two_faces_at_two_faced :
  (2 ≤ length (faces_of card_two_faced))%nat.
Proof.
  apply (has_back_needs_two_faces card_two_faced (mapped_card_spec card_two_faced)).
  - apply map_scryfall_card_total. reflexivity.
  - reflexivity.
Defined.

Lemma unsized_card_faces_fail_at_numeric_faces :
  is_Ok (map_scryfall_card card_with_numeric_faces) = false.
Proof.
  apply (unsized_card_faces_fail card_with_numeric_faces).
  - reflexivity.
  - reflexivity.
Defined.
